(** * iec62056: the local measurement service and the cache dumper

    A shallow embedding of the HTTP front end of the local measurement cache
    (package [service]: [getParams], [paginate], [getContext], [get],
    [getPage], [getAll], [ServeHTTP]) and of [actors.CacheDumper.Do], with
    the properties the specification states about them.

    Go values are modelled as follows.
    - [int] is a 64-bit integer, carried as [Z];
    - a [string] is a sequence of bytes, carried as [string];
    - a pointer that may be [nil] is an [option];
    - an [error] is an inductive value with its [Error()] text, [nil] being
      [None];
    - a [(value, error)] result is a pair, since Go lets both be set or both
      be [nil];
    - side effects (the response writer, the log, the calls made on the
      pager actor) are threaded through a state monad. *)

From Stdlib Require Import ZArith String Ascii List Bool Lia.
From stdpp Require Import base option list strings pretty gmap.

Local Open Scope string_scope.
Local Open Scope Z_scope.

(** ** Go preliminaries *)

(** A pointer: [None] is [nil]. *)
Definition ptr (A : Type) : Type := option A.

(** The horizontal tab and the line feed, which Go writes [\t] and [\n]. *)
Definition TAB : string := String (ascii_of_nat 9) EmptyString.
Definition LF : string := String (ascii_of_nat 10) EmptyString.

(** [*errPagination]: a [strings.Builder], held as its content. *)
Record errPagination := mkErrPagination { Builder : string }.

(** Go's [error] values, as far as this package meets them. *)
Inductive error : Type :=
| errorString (s : string)
    (* [errors.New(s)], and any foreign error whose text is [s] *)
| NumError (Func Num : string) (Err : error)
    (* [*strconv.NumError] *)
| ErrPag (e : errPagination).
    (* an [*errPagination] stored in an [error] *)

(** [len(s)] as an [int]. *)
Definition len (s : string) : Z := Z.of_nat (String.length s).

(** [strings.HasPrefix(s, prefix)]. *)
Definition HasPrefix (s prefix : string) : bool := String.prefix prefix s.

(** ** strconv.Atoi

    Go's standard library: the conversion [getParams] applies to the form
    values, for a platform whose [int] has 64 bits. *)
Module strconv.

Definition intSize : Z := 64.

Definition ErrSyntax : error := errorString "invalid syntax".
Definition ErrRange : error := errorString "value out of range".

Definition syntaxError (fn str : string) : error := NumError fn str ErrSyntax.
Definition rangeError (fn str : string) : error := NumError fn str ErrRange.

Definition byte_of (c : ascii) : Z := Z.of_N (N_of_ascii c).

(** [ParseUint(s, 10, 64)]: the loop over the bytes, [n] the value so far. *)
Fixpoint ParseUint_loop (s0 s : string) (n : Z) : Z * option error :=
  match s with
  | EmptyString => (n, None)
  | String c s' =>
      let b := byte_of c in
      if (48 <=? b) && (b <=? 57) then
        let d := b - 48 in
        if (2 ^ 64 - 1) / 10 + 1 <=? n then
          (2 ^ 64 - 1, Some (rangeError "ParseUint" s0))
        else
          let n1 := n * 10 + d in
          if 2 ^ 64 - 1 <? n1 then
            (2 ^ 64 - 1, Some (rangeError "ParseUint" s0))
          else ParseUint_loop s0 s' n1
      else (0, Some (syntaxError "ParseUint" s0))
  end.

Definition ParseUint (s : string) : Z * option error :=
  match s with
  | EmptyString => (0, Some (syntaxError "ParseUint" s))
  | _ => ParseUint_loop s s 0
  end.

Definition isRange (e : error) : bool :=
  match e with
  | NumError _ _ (errorString "value out of range") => true
  | _ => false
  end.

(** [ParseInt(s, 10, 0)]. *)
Definition ParseInt (s : string) : Z * option error :=
  match s with
  | EmptyString => (0, Some (syntaxError "ParseInt" s))
  | String c rest =>
      let s0 := s in
      let neg := Ascii.eqb c "-" in
      let s1 := if Ascii.eqb c "+" then rest else if neg then rest else s in
      let '(un, err) := ParseUint s1 in
      match err with
      | Some e =>
          if negb (isRange e) then (0, Some (syntaxError "ParseInt" s0))
          else if negb neg && (2 ^ 63 <=? un) then
            (2 ^ 63 - 1, Some (rangeError "ParseInt" s0))
          else if neg && (2 ^ 63 <? un) then
            (- 2 ^ 63, Some (rangeError "ParseInt" s0))
          else (if neg then - un else un, None)
      | None =>
          if negb neg && (2 ^ 63 <=? un) then
            (2 ^ 63 - 1, Some (rangeError "ParseInt" s0))
          else if neg && (2 ^ 63 <? un) then
            (- 2 ^ 63, Some (rangeError "ParseInt" s0))
          else (if neg then - un else un, None)
      end
  end.

(** The fast path of [Atoi]: the digits of a short string. *)
Fixpoint Atoi_digits (s : string) (n : Z) : option Z :=
  match s with
  | EmptyString => Some n
  | String ch s' =>
      let d := (byte_of ch - 48) mod 256 in
      if 9 <? d then None else Atoi_digits s' (n * 10 + d)
  end.

Definition Atoi (s : string) : Z * option error :=
  let sLen := len s in
  if (0 <? sLen) && (sLen <? 19) then
    match s with
    | EmptyString => (0, Some (syntaxError "Atoi" s))
    | String c rest =>
        let signed := Ascii.eqb c "-" || Ascii.eqb c "+" in
        let s1 := if signed then rest else s in
        if signed && (len s1 <? 1) then (0, Some (syntaxError "Atoi" s))
        else
          match Atoi_digits s1 0 with
          | None => (0, Some (syntaxError "Atoi" s))
          | Some n => (if Ascii.eqb c "-" then - n else n, None)
          end
    end
  else
    match ParseInt s with
    | (i64, Some (NumError _ num e)) => (i64, Some (NumError "Atoi" num e))
    | r => r
    end.

End strconv.

(** ** What the package imports

    The parts of the program and of Go's library that the service uses and
    whose code is not part of the package: they are taken as given, and every
    property below holds whatever they are. *)

(** [interface{}] as [MeasurementsResponse.Data] holds it. *)
Inductive iface (Measurement : Type) : Type :=
| OfMeasurement (msm : ptr Measurement)           (* a [*model.Measurement] *)
| OfSlice (msm : list (ptr Measurement)).         (* a [[]*model.Measurement] *)
Arguments OfMeasurement {Measurement} msm.
Arguments OfSlice {Measurement} msm.

Record MeasurementsResponse (Measurement : Type) : Type :=
  mkMeasurementsResponse { Data : iface Measurement }.
Arguments mkMeasurementsResponse {Measurement} Data.
Arguments Data {Measurement} m.

Class Imports : Type := {
  (* [model.Measurement] *)
  Measurement : Type;
  (* the keys [model.First] and [model.Last] *)
  model_First : string;
  model_Last : string;
  (* [strings.ToLower], which maps every Unicode letter *)
  strings_ToLower : string -> string;
  (* [strconv.Quote], used by the text of a [*strconv.NumError] *)
  strconv_Quote : string -> string;
  (* [json.Marshal] on a [*MeasurementsResponse] *)
  json_Marshal : ptr (MeasurementsResponse Measurement) -> string * option error;
  (* the verb [%+v] of package [fmt] on a [model.Measurement] *)
  fmt_plus_v : Measurement -> string
}.

(** [err.Error()]. *)
Fixpoint Error `{Imports} (e : error) : string :=
  match e with
  | errorString s => s
  | NumError fn num err =>
      "strconv." +:+ fn +:+ ": parsing " +:+ strconv_Quote num +:+ ": " +:+ Error err
  | ErrPag s => "bad pagination parameters" +:+ LF +:+ Builder s
  end.

(** ** net/http: requests and response writers *)

Definition StatusOK : Z := 200.
Definition StatusBadRequest : Z := 400.
Definition StatusInternalServerError : Z := 500.

(** A request: the path of its URL, and what [r.ParseForm()] leaves in
    [r.Form] and returns. *)
Record Request := mkRequest {
  URL_Path : string;
  Form : gmap string (list string);
  ParseForm_err : option error
}.

(** [r.FormValue(key)]: the first value of [key], or the empty string. The
    form is parsed by the time [getParams] asks. *)
Definition FormValue (r : Request) (key : string) : string :=
  match Form r !! key with
  | Some (v :: _) => v
  | _ => ""
  end.

(** A response writer: the header map, the status line once it is written,
    and the body sent so far. *)
Record ResponseWriter := mkResponseWriter {
  Header : gmap string (list string);
  Status : option Z;
  Body : string
}.

Definition newResponseWriter : ResponseWriter :=
  {| Header := ∅; Status := None; Body := "" |}.

(** ** Effects

    The calls a handler makes on the pager actor, and the other events it
    causes, are recorded in the order they happen. *)
Inductive Call : Type :=
| CallGet (key : string)
| CallGetPage (page size : Z)
| CallGetAll.

Inductive Event : Type :=
| EvParseForm
| EvLog (line : string)
| EvCall (c : Call).

Record World := mkWorld { w : ResponseWriter; trace : list Event }.

Definition M (A : Type) : Type := World -> A * World.

#[export] Instance M_ret : MRet M := fun A x s => (x, s).
#[export] Instance M_bind : MBind M :=
  fun A B f m s => let '(x, s') := m s in f x s'.

Definition emit (e : Event) : M unit :=
  fun s => (tt, {| w := w s; trace := trace s ++ [e] |}).

Definition modify_w (f : ResponseWriter -> ResponseWriter) : M unit :=
  fun s => (tt, {| w := f (w s); trace := trace s |}).

(** [log.Print] and [log.Printf], after formatting. *)
Definition log_Print (line : string) : M unit := emit (EvLog line).

(** [w.Header().Set(key, value)] and [w.Header().Del(key)]. *)
Definition Header_Set (key value : string) : M unit :=
  modify_w (fun rw =>
    {| Header := <[key := [value]]> (Header rw); Status := Status rw; Body := Body rw |}).

Definition Header_Del (key : string) : M unit :=
  modify_w (fun rw =>
    {| Header := delete key (Header rw); Status := Status rw; Body := Body rw |}).

(** [w.WriteHeader(code)]: only the first call counts. *)
Definition WriteHeader (code : Z) : M unit :=
  modify_w (fun rw =>
    match Status rw with
    | Some _ => rw
    | None => {| Header := Header rw; Status := Some code; Body := Body rw |}
    end).

(** [w.Write(b)]: sends the status line, 200 unless one was written. *)
Definition Write (b : string) : M unit :=
  _ ← WriteHeader StatusOK;
  modify_w (fun rw =>
    {| Header := Header rw; Status := Status rw; Body := Body rw +:+ b |}).

(** [http.Error(w, error, code)]: the headers it sets, the status line and
    the message followed by a line feed. *)
Definition http_Error (msg : string) (code : Z) : M unit :=
  _ ← Header_Del "Content-Length";
  _ ← Header_Set "Content-Type" "text/plain; charset=utf-8";
  _ ← Header_Set "X-Content-Type-Options" "nosniff";
  _ ← WriteHeader code;
  Write (msg +:+ LF).

(** [r.ParseForm()]. *)
Definition ParseForm (r : Request) : M (option error) :=
  _ ← emit EvParseForm;
  mret (ParseForm_err r).

(** ** Package service *)

(** [ErrBadParameter]. *)
Definition ErrBadParameter : error := errorString "parameter error".

(** [fmt.Fprint(serr, s)] and [fmt.Fprintf(serr, ...)], after formatting:
    the text is appended to the builder. *)
Definition Fprint (serr : errPagination) (s : string) : errPagination :=
  {| Builder := Builder serr +:+ s |}.

(** [serr.Len()]. *)
Definition Builder_Len (serr : errPagination) : Z := len (Builder serr).

Record pagination := mkPagination {
  p_page : Z;
  p_size : Z;
  p_err : ptr errPagination
}.

(** [new(pagination)]. *)
Definition new_pagination : pagination :=
  {| p_page := 0; p_size := 0; p_err := None |}.

(** [(p *pagination) getParams(r)]: the pagination after the call. The
    builder [serr] is threaded through the three checks. *)
Definition getParams `{Imports} (r : Request) (p : pagination) : pagination :=
  let page := FormValue r "page" in
  let size := FormValue r "size" in
  let p_page0 := 0 in
  let p_size0 := 0 in
  let serr := {| Builder := "" |} in
  let '(p_page1, serr) :=
    if negb (len page =? 0) then
      match strconv.Atoi (FormValue r "page") with
      | (_, Some err) =>
          (p_page0, Fprint serr (TAB +:+ "page parameter error: " +:+ Error err +:+ LF))
      | (v, None) =>
          if v <? 0 then
            (p_page0, Fprint serr (TAB +:+ "page parameter cannog be negative" +:+ LF))
          else (v, serr)
      end
    else (p_page0, serr) in
  let '(p_size1, serr) :=
    if 0 <? len size then
      match strconv.Atoi (FormValue r "size") with
      | (_, Some err) =>
          (p_size0, Fprint serr (TAB +:+ "size parameter error: " +:+ Error err +:+ LF))
      | (v, None) =>
          if v <? 0 then
            (p_size0, Fprint serr (TAB +:+ "size parameter cannot be negative" +:+ LF))
          else (v, serr)
      end
    else (p_size0, serr) in
  let serr :=
    if (0 <? p_page1) && (p_size1 =? 0) then
      Fprint serr (TAB +:+ "non zero page parameter requires non zero limit" +:+ LF)
    else serr in
  {| p_page := p_page1;
     p_size := p_size1;
     p_err := if 0 <? Builder_Len serr then Some serr else p_err p |}.

Definition NewPagination `{Imports} (r : Request) : pagination :=
  getParams r new_pagination.

(** [(p *pagination) paginate()]. *)
Definition paginate (p : pagination) : bool :=
  match p_err p with
  | None => 0 <? p_size p
  | Some _ => false
  end.

Record requestContext := mkRequestContext {
  c_first : bool;
  c_last : bool;
  c_err : option error;
  c_pag : ptr pagination
}.

Definition path : string := "/measurements".
Definition pathSlash : string := "/measurements/".
Definition firstPath : string := "/measurements/first".
Definition lastPath : string := "/measurements/last".

Definition getContext `{Imports} (r : Request) : M requestContext :=
  let c := {| c_first := false; c_last := false; c_err := None; c_pag := None |} in
  let p := strings_ToLower (URL_Path r) in
  if HasPrefix p firstPath then
    mret {| c_first := true; c_last := c_last c; c_err := c_err c; c_pag := c_pag c |}
  else if HasPrefix p lastPath then
    mret {| c_first := c_first c; c_last := true; c_err := c_err c; c_pag := c_pag c |}
  else if String.eqb p path || String.eqb p pathSlash then
    e ← ParseForm r;
    match e with
    | Some _ =>
        mret {| c_first := c_first c; c_last := c_last c; c_err := e; c_pag := c_pag c |}
    | None =>
        let pag := NewPagination r in
        match p_err pag with
        | Some pe =>
            mret {| c_first := c_first c; c_last := c_last c;
                    c_err := Some (ErrPag pe); c_pag := c_pag c |}
        | None =>
            mret {| c_first := c_first c; c_last := c_last c;
                    c_err := e; c_pag := Some pag |}
        end
    end
  else
    mret {| c_first := c_first c; c_last := c_last c;
            c_err := Some ErrBadParameter; c_pag := c_pag c |}.

(** [actors.PagerActor] over the repository of the service: what its three
    methods return when the request is served. Their code is not part of
    the package; the handler is verified for every such actor. *)
Record PagerActor `{Imports} := mkPagerActor {
  Get : string -> ptr Measurement * option error;
  GetPage : Z -> Z -> list (ptr Measurement) * option error;
  GetAll : list (ptr Measurement) * option error
}.

Section Service.
Context `{Imports}.

Definition call_Get (a : PagerActor) (key : string) : M (ptr Measurement * option error) :=
  _ ← emit (EvCall (CallGet key));
  mret (Get a key).

Definition call_GetPage (a : PagerActor) (page size : Z) :
    M (list (ptr Measurement) * option error) :=
  _ ← emit (EvCall (CallGetPage page size));
  mret (GetPage a page size).

Definition call_GetAll (a : PagerActor) : M (list (ptr Measurement) * option error) :=
  _ ← emit (EvCall CallGetAll);
  mret (GetAll a).

Definition get (a : PagerActor) (key : string) :
    M (ptr (MeasurementsResponse Measurement) * option error) :=
  '(msm, err) ← call_Get a key;
  match err with
  | Some _ => mret (None, err)
  | None =>
      match msm with
      | None =>
          let err := errorString "dumpsvc.get: unexpected nil result" in
          _ ← log_Print ("Error retrieving " +:+ key +:+ " element: " +:+ Error err);
          mret (None, Some err)
      | Some _ => mret (Some {| Data := OfMeasurement msm |}, None)
      end
  end.

Definition getPage (a : PagerActor) (pag : pagination) :
    M (ptr (MeasurementsResponse Measurement) * option error) :=
  '(msm, err) ← call_GetPage a (p_page pag) (p_size pag);
  match err with
  | Some _ => mret (None, err)
  | None => mret (Some {| Data := OfSlice msm |}, None)
  end.

Definition getAll (a : PagerActor) :
    M (ptr (MeasurementsResponse Measurement) * option error) :=
  '(msm, err) ← call_GetAll a;
  match err with
  | Some _ => mret (None, err)
  | None => mret (Some {| Data := OfSlice msm |}, None)
  end.

(** The [switch] of [ServeHTTP]. *)
Definition dispatch (a : PagerActor) (ctx : requestContext) :
    M (ptr (MeasurementsResponse Measurement) * option error) :=
  if c_first ctx then
    _ ← log_Print "GetAll: getFirst";
    get a model_First
  else if c_last ctx then
    _ ← log_Print "GetAll: getLast";
    get a model_Last
  else
    match c_pag ctx with
    | Some pag =>
        if paginate pag then
          _ ← log_Print "GetAll: getPage";
          getPage a pag
        else
          _ ← log_Print "GetAll: getAll";
          getAll a
    | None =>
        _ ← log_Print "GetAll: getAll";
        getAll a
    end.

(** [(h *GetAllHandler) ServeHTTP(w, r)], [a] being the pager actor over
    [h.server.localRepo]. *)
Definition ServeHTTP (a : PagerActor) (r : Request) : M unit :=
  ctx ← getContext r;
  match c_err ctx with
  | Some _ => http_Error "bad request" StatusBadRequest
  | None =>
      '(mr, err) ← dispatch a ctx;
      match err with
      | Some e =>
          http_Error ("internal error: " +:+ Error e) StatusInternalServerError
      | None =>
          _ ← Header_Set "Content-Type" "application/json";
          let '(j, err) := json_Marshal mr in
          match err with
          | Some e =>
              http_Error ("internal error: " +:+ Error e) StatusInternalServerError
          | None =>
              _ ← log_Print "writing measurements response...";
              _ ← Write j;
              log_Print "writing measurements response...done"
          end
      end
  end.

(** Serving one request with a fresh response writer. *)
Definition serve (a : PagerActor) (r : Request) : World :=
  snd (ServeHTTP a r {| w := newResponseWriter; trace := [] |}).

(** The calls on the pager actor among the events of a run. *)
Definition calls (t : list Event) : list Call :=
  omap (fun e => match e with EvCall c => Some c | _ => None end) t.

(** The error the pager actor returns on a call. *)
Definition call_err (a : PagerActor) (c : Call) : option error :=
  match c with
  | CallGet key => snd (Get a key)
  | CallGetPage page size => snd (GetPage a page size)
  | CallGetAll => snd (GetAll a)
  end.

(** The three kinds of path [getContext] tells apart, on the lowered path. *)
Definition firstRequest (r : Request) : Prop :=
  HasPrefix (strings_ToLower (URL_Path r)) firstPath = true.

Definition lastRequest (r : Request) : Prop :=
  HasPrefix (strings_ToLower (URL_Path r)) lastPath = true.

Definition measurementsRequest (r : Request) : Prop :=
  strings_ToLower (URL_Path r) = path \/ strings_ToLower (URL_Path r) = pathSlash.

Definition unknownRequest (r : Request) : Prop :=
  HasPrefix (strings_ToLower (URL_Path r)) firstPath = false
  /\ HasPrefix (strings_ToLower (URL_Path r)) lastPath = false
  /\ strings_ToLower (URL_Path r) <> path
  /\ strings_ToLower (URL_Path r) <> pathSlash.

End Service.

(** ** Package actors: the cache dumper *)

(** [io.Writer]: one call of [Write] takes the sink to its next state and
    returns the number of bytes written and an error. *)
Class io_Writer (W : Type) : Type :=
  io_Write : W -> string -> W * (Z * option error).

(** [model.MeasurementRepo], as far as the dumper uses it. *)
Class MeasurementRepo `{Imports} (R : Type) : Type :=
  Repo_GetAll : R -> list (ptr Measurement) * option error.

(** How a call ends: it returns, or it panics. *)
Inductive outcome (A : Type) : Type :=
| Returns (a : A)
| Panics.
Arguments Returns {A} a.
Arguments Panics {A}.

Section Dump.
Context `{Imports} {R W : Type} `{!MeasurementRepo R} `{!io_Writer W}.

Record CacheDumper := mkCacheDumper { Repo : R; Writer : W }.

(** What a run of [Do] leaves behind: the sink, the buffers handed to its
    [Write] in the order of the calls, the lines logged and the text printed
    on standard output. *)
Record DumpState := mkDumpState {
  d_Writer : W;
  d_writes : list string;
  d_log : list string;
  d_stdout : string
}.

(** [fmt.Fprintf(c.Writer, "%+v", *v)]: one [Write] of the formatted text,
    whose results are dropped. *)
Definition Fprintf_plus_v (st : W * list string) (x : Measurement) : W * list string :=
  let buf := fmt_plus_v x in
  let '(wr, _) := io_Write (fst st) buf in
  (wr, (snd st ++ [buf])%list).

(** The [for _, v := range m] loop; [*v] panics on a [nil] entry. *)
Fixpoint Do_range (m : list (ptr Measurement)) (st : W * list string) :
    outcome unit * (W * list string) :=
  match m with
  | [] => (Returns tt, st)
  | None :: _ => (Panics, st)
  | Some x :: m' => Do_range m' (Fprintf_plus_v st x)
  end.

(** [(c *CacheDumper) Do()]. *)
Definition Do (c : CacheDumper) : outcome (option error) * DumpState :=
  let '(m, err) := Repo_GetAll (Repo c) in
  match err with
  | Some e =>
      (Returns err,
       {| d_Writer := Writer c;
          d_writes := [];
          d_log := ["error reading the local cache: " +:+ Error e +:+ LF];
          d_stdout := "" |})
  | None =>
      let out := "retrieved " +:+ pretty (Z.of_nat (length m)) +:+ " measurements" +:+ LF in
      let '(res, (wr, ws)) := Do_range m (Writer c, []) in
      (match res with Returns _ => Returns None | Panics => Panics end,
       {| d_Writer := wr; d_writes := ws; d_log := []; d_stdout := out |})
  end.

End Dump.

(** A sink that keeps what it is sent until it is full, and fails every
    [Write] that does not fit: a write fault that persists. *)
Record buffer := mkBuffer { content : string; room : Z }.

#[export] Instance buffer_Writer : io_Writer buffer :=
  fun wr b =>
    if len b <=? room wr then
      ({| content := content wr +:+ b; room := room wr - len b |}, (len b, None))
    else (wr, (0, Some (errorString "short write"))).

(** ** The pager actor and the repository, from the specification *)
Module SpecModel.
Section Pager.
Context {Measurement : Type}.

(** Modelled from the spec: the Measurement Repository, whose code is not
    part of the sources. It is "an ordered sequence of Measurements,
    insertion order = arrival order". *)
Definition Repository : Type := list Measurement.

Inductive Failure : Type := NotFound | BadParameter.

(** Modelled from the spec: [GetRange(offset, limit)] of the repository,
    which "never fails on out-of-range input; it clamps and may return an
    empty sequence". *)
Definition GetRange (repo : Repository) (offset limit : Z) : list Measurement :=
  take (Z.to_nat limit) (drop (Z.to_nat offset) repo).

(** Modelled from the spec: [GetPage(page, size)] of the Pager Actor, which
    "validates [(page, size)] per the Page Request invariant before
    delegating; fails with [BadParameter] when the invariant is violated
    (non-zero page with zero size)". A Page Request has [page >= 0] and
    [size >= 0], and its result is the range [[page*size, page*size+size)]
    clamped to the repository's bounds. *)
Definition GetPage (repo : Repository) (page size : Z) : list Measurement + Failure :=
  if (page <? 0) || (size <? 0) then inr BadParameter
  else if (0 <? page) && (size =? 0) then inr BadParameter
  else inl (GetRange repo (page * size) size).

End Pager.
End SpecModel.

(** ** A sample of the imports

    Concrete stand-ins, for running the model on concrete requests: a
    measurement is its sequence number, the lowering is the one of ASCII. *)
Definition lowerASCII (c : ascii) : ascii :=
  let n := N_of_ascii c in
  if ((65 <=? n) && (n <=? 90))%N then ascii_of_N (n + 32) else c.

Fixpoint ToLowerASCII (s : string) : string :=
  match s with
  | EmptyString => EmptyString
  | String c s' => String (lowerASCII c) (ToLowerASCII s')
  end.

Definition DQ : string := String (ascii_of_nat 34) EmptyString.

Definition sample_json_ptr (p : ptr Z) : string :=
  match p with
  | None => "null"
  | Some n => pretty n
  end.

Fixpoint sample_json_list (l : list (ptr Z)) : string :=
  match l with
  | [] => ""
  | [p] => sample_json_ptr p
  | p :: l' => sample_json_ptr p +:+ "," +:+ sample_json_list l'
  end.

Definition sample_json (mr : ptr (MeasurementsResponse Z)) : string * option error :=
  match mr with
  | None => ("null", None)
  | Some {| Data := OfMeasurement p |} =>
      ("{" +:+ DQ +:+ "Data" +:+ DQ +:+ ":" +:+ sample_json_ptr p +:+ "}", None)
  | Some {| Data := OfSlice l |} =>
      ("{" +:+ DQ +:+ "Data" +:+ DQ +:+ ":[" +:+ sample_json_list l +:+ "]}", None)
  end.

Definition sample : Imports := {|
  Measurement := Z;
  model_First := "first";
  model_Last := "last";
  strings_ToLower := ToLowerASCII;
  strconv_Quote := fun s => DQ +:+ s +:+ DQ;
  json_Marshal := sample_json;
  fmt_plus_v := fun n => "{Seq:" +:+ pretty n +:+ "}"
|}.

(** A pager actor over a list of sample measurements: [Get] fails with
    [notFound] on the empty list, [GetPage] slices, [GetAll] returns all. *)
Definition notFound : error := errorString "not found".

Definition listActor (l : list Z) : @PagerActor sample :=
  @mkPagerActor sample
    (fun key =>
       if String.eqb key "first" then
         match head l with Some x => (Some x, None) | None => (None, Some notFound) end
       else if String.eqb key "last" then
         match last l with Some x => (Some x, None) | None => (None, Some notFound) end
       else (None, Some notFound))
    (fun page size =>
       (Some <$> take (Z.to_nat size) (drop (Z.to_nat (page * size)) l), None))
    (Some <$> l, None).

(** A pager actor whose repository is out of order: every call fails. *)
Definition brokenActor : @PagerActor sample :=
  @mkPagerActor sample
    (fun _ => (None, Some (errorString "storage fault")))
    (fun _ _ => ([], Some (errorString "storage fault")))
    ([], Some (errorString "storage fault")).

Definition request (path : string) (form : list (string * list string)) : Request :=
  {| URL_Path := path; Form := list_to_map form; ParseForm_err := None |}.

(** A repository that is a list of sample measurements, and one that fails. *)
#[export] Instance list_Repo : @MeasurementRepo sample (list Z) :=
  fun l => (Some <$> l, None).

#[export] Instance failing_Repo : @MeasurementRepo sample unit :=
  fun _ => ([], Some (errorString "storage fault")).

(** Sample requests. *)
Definition r_first : Request := request "/Measurements/First" [].
Definition r_last : Request := request "/measurements/last/7" [].
Definition r_page : Request :=
  request "/measurements/" [("page", ["1"]); ("size", ["2"])].
Definition r_all : Request := request "/measurements" [].
Definition r_page_no_size : Request :=
  request "/measurements/" [("page", ["1"]); ("size", ["0"])].
Definition r_negative : Request := request "/measurements/" [("page", ["-1"])].
Definition r_empty_page : Request := request "/measurements/" [("page", [""])].
Definition r_unknown : Request := request "/measurements/middle" [].

(** Sample dumpers: one whose sink has room for one measurement only, and
    one whose repository fails. *)
Definition smallDumper : @CacheDumper (list Z) buffer :=
  {| Repo := [1; 2; 3]; Writer := {| content := ""; room := 8 |} |}.


(** What the handler puts in [Data] after a call on the pager actor. *)
Definition call_data `{Imports} (a : PagerActor) (c : Call) : iface Measurement :=
  match c with
  | CallGet key => OfMeasurement (fst (Get a key))
  | CallGetPage page size => OfSlice (fst (GetPage a page size))
  | CallGetAll => OfSlice (fst (GetAll a))
  end.

(** A raw form value [getParams] takes without complaint: it is empty, or
    [strconv.Atoi] reads it as an integer that is not negative. *)
Definition acceptable (raw : string) : Prop :=
  raw = "" \/ (snd (strconv.Atoi raw) = None /\ 0 <= fst (strconv.Atoi raw)).

(** More sample requests and a sample dumper whose repository holds a [nil]
    entry. *)
Definition r_first_bad_form : Request :=
  {| URL_Path := "/measurements/first";
     Form := list_to_map [("page", ["-1"])];
     ParseForm_err := Some (errorString "invalid semicolon separator in query") |}.
Definition r_both_bad : Request :=
  request "/measurements/" [("page", ["x"]); ("size", ["y"])].
Definition r_broken_form : Request :=
  {| URL_Path := "/measurements/";
     Form := ∅;
     ParseForm_err := Some (errorString "invalid semicolon separator in query") |}.

#[export] Instance ptr_list_Repo : @MeasurementRepo sample (list (ptr Z)) :=
  fun l => (l, None).

#[export] Instance stale_Repo : @MeasurementRepo sample (list Z * error) :=
  fun '(l, e) => (Some <$> l, Some e).


Definition staleDumper : @CacheDumper (list Z * error) buffer :=
  {| Repo := ([1; 2], errorString "storage fault");
     Writer := {| content := ""; room := 100 |} |}.

(** * Properties *)

(** ** strconv.Atoi on examples *)

Example Atoi_12 : strconv.Atoi "12" = (12, None).
Proof. reflexivity. Qed.

Example Atoi_minus_7 : strconv.Atoi "-7" = (-7, None).
Proof. reflexivity. Qed.

Example Atoi_plus_5 : strconv.Atoi "+5" = (5, None).
Proof. reflexivity. Qed.

Example Atoi_empty :
  strconv.Atoi "" = (0, Some (NumError "Atoi" "" strconv.ErrSyntax)).
Proof. reflexivity. Qed.

Example Atoi_word :
  strconv.Atoi "abc" = (0, Some (NumError "Atoi" "abc" strconv.ErrSyntax)).
Proof. reflexivity. Qed.

Example Atoi_max : strconv.Atoi "9223372036854775807" = (2 ^ 63 - 1, None).
Proof. vm_compute. reflexivity. Qed.

Example Atoi_over :
  strconv.Atoi "9223372036854775808"
  = (2 ^ 63 - 1, Some (NumError "Atoi" "9223372036854775808" strconv.ErrRange)).
Proof. vm_compute. reflexivity. Qed.

Example Atoi_min : strconv.Atoi "-9223372036854775808" = (- 2 ^ 63, None).
Proof. vm_compute. reflexivity. Qed.

(** ** Strings *)

Lemma app_nil_l (b : string) : "" +:+ b = b.
Proof. reflexivity. Qed.

Lemma app_String (c : ascii) (a b : string) :
  String c a +:+ b = String c (a +:+ b).
Proof. reflexivity. Qed.

Lemma len_app (a b : string) : len (a +:+ b) = len a + len b.
Proof.
  unfold len. induction a as [|c a IH].
  - rewrite app_nil_l. simpl. lia.
  - rewrite app_String. simpl String.length. lia.
Qed.

Lemma len_nonneg (a : string) : 0 <= len a.
Proof. unfold len. lia. Qed.

Lemma len_TAB : len TAB = 1.
Proof. reflexivity. Qed.

Lemma len_0_iff (a : string) : len a = 0 <-> a = "".
Proof.
  unfold len. destruct a; cbn [String.length]; split; intros E; try done; lia.
Qed.

Lemma HasPrefix_app (pre t : string) : HasPrefix (pre +:+ t) pre = true.
Proof.
  unfold HasPrefix. induction pre as [|c pre IH].
  - rewrite app_nil_l. destruct t; reflexivity.
  - rewrite app_String. simpl.
    destruct (ascii_dec c c); [exact IH | congruence].
Qed.

Lemma HasPrefix_inv (s pre : string) :
  HasPrefix s pre = true -> exists t, s = pre +:+ t.
Proof.
  unfold HasPrefix. revert s. induction pre as [|c pre IH]; intros s Hs.
  - exists s. reflexivity.
  - destruct s as [|d s]; cbn in Hs; [discriminate|].
    destruct (ascii_dec c d) as [->|]; [|discriminate].
    destruct (IH _ Hs) as [t ->]. exists t. reflexivity.
Qed.

(** No path starts with both [firstPath] and [lastPath]. *)
Lemma first_last_disjoint (s : string) :
  HasPrefix s lastPath = true -> HasPrefix s firstPath = false.
Proof.
  intros Hl. destruct (HasPrefix_inv _ _ Hl) as [t ->]. reflexivity.
Qed.

Lemma path_no_prefix (s : string) :
  s = path \/ s = pathSlash ->
  HasPrefix s firstPath = false /\ HasPrefix s lastPath = false.
Proof. intros [-> | ->]; split; reflexivity. Qed.

(** ** The pagination parameters *)

Lemma Builder_Len_Fprint (serr : errPagination) (s : string) :
  Builder_Len (Fprint serr s) = Builder_Len serr + len s.
Proof. unfold Builder_Len, Fprint. cbn. apply len_app. Qed.

Ltac builder_len :=
  repeat rewrite Builder_Len_Fprint;
  repeat rewrite len_app;
  rewrite ?len_TAB;
  unfold Builder_Len; cbn [Builder];
  repeat match goal with
         | |- context [len ?s] =>
             lazymatch goal with
             | _ : 0 <= len s |- _ => fail
             | _ => pose proof (len_nonneg s)
             end
         end.

Section ParamsFacts.
Context `{Imports}.

(** The fields [getParams] leaves are never negative. *)
Lemma getParams_nonneg (r : Request) (p : pagination) :
  0 <= p_page (getParams r p) /\ 0 <= p_size (getParams r p).
Proof.
  unfold getParams.
  destruct (negb (len (FormValue r "page") =? 0));
    [destruct (strconv.Atoi (FormValue r "page")) as [v [e|]];
       [|destruct (v <? 0) eqn:Ev]|];
    (destruct (0 <? len (FormValue r "size"));
       [destruct (strconv.Atoi (FormValue r "size")) as [v' [e'|]];
          [|destruct (v' <? 0) eqn:Ev']|]);
    cbn [p_page p_size]; lia.
Qed.

(** Whatever makes [getParams] write to the builder sets the error. *)
Lemma getParams_page_error (r : Request) (p : pagination) :
  FormValue r "page" <> "" ->
  snd (strconv.Atoi (FormValue r "page")) <> None
  \/ fst (strconv.Atoi (FormValue r "page")) < 0 ->
  p_err (getParams r p) <> None.
Proof.
  intros Hne Hbad. unfold getParams.
  assert (negb (len (FormValue r "page") =? 0) = true) as ->.
  { apply negb_true_iff, Z.eqb_neq. rewrite len_0_iff. exact Hne. }
  destruct (strconv.Atoi (FormValue r "page")) as [v [e|]]; cbn [fst snd] in Hbad;
    [|destruct (v <? 0) eqn:Ev; [|destruct Hbad; [done|lia]]];
    (destruct (0 <? len (FormValue r "size"));
       [destruct (strconv.Atoi (FormValue r "size")) as [v' [e'|]];
          [|destruct (v' <? 0) eqn:Ev']|]);
    cbn [p_err andb Z.ltb Z.compare Z.eqb];
    repeat match goal with
           | |- context [if (?a && ?b)%bool then _ else _] => destruct (a && b)%bool
           end;
    match goal with
    | |- (if 0 <? ?n then _ else _) <> None =>
        assert ((0 <? n) = true) as ->; [|done]
    end;
    apply Z.ltb_lt; builder_len; lia.
Qed.

Lemma getParams_size_error (r : Request) (p : pagination) :
  FormValue r "size" <> "" ->
  snd (strconv.Atoi (FormValue r "size")) <> None
  \/ fst (strconv.Atoi (FormValue r "size")) < 0 ->
  p_err (getParams r p) <> None.
Proof.
  intros Hne Hbad. unfold getParams.
  assert ((0 <? len (FormValue r "size")) = true) as ->.
  { apply Z.ltb_lt. pose proof (len_nonneg (FormValue r "size")).
    pose proof (proj1 (len_0_iff (FormValue r "size"))). 
    destruct (Z.eq_dec (len (FormValue r "size")) 0); [tauto|lia]. }
  destruct (negb (len (FormValue r "page") =? 0));
    [destruct (strconv.Atoi (FormValue r "page")) as [v [e|]];
       [|destruct (v <? 0) eqn:Ev]|];
    (destruct (strconv.Atoi (FormValue r "size")) as [v' [e'|]];
       cbn [fst snd] in Hbad;
       [|destruct (v' <? 0) eqn:Ev'; [|destruct Hbad; [done|lia]]]);
    cbn [p_err andb Z.ltb Z.compare Z.eqb];
    repeat match goal with
           | |- context [if (?a && ?b)%bool then _ else _] => destruct (a && b)%bool
           end;
    match goal with
    | |- (if 0 <? ?n then _ else _) <> None =>
        assert ((0 <? n) = true) as ->; [|done]
    end;
    apply Z.ltb_lt; builder_len; lia.
Qed.

(** A page without a size sets the error. *)
Lemma getParams_page_without_size (r : Request) (p : pagination) :
  0 < p_page (getParams r p) ->
  p_size (getParams r p) = 0 ->
  p_err (getParams r p) <> None.
Proof.
  unfold getParams.
  destruct (negb (len (FormValue r "page") =? 0));
    [destruct (strconv.Atoi (FormValue r "page")) as [v [e|]];
       [|destruct (v <? 0) eqn:Ev]|];
    (destruct (0 <? len (FormValue r "size"));
       [destruct (strconv.Atoi (FormValue r "size")) as [v' [e'|]];
          [|destruct (v' <? 0) eqn:Ev']|]);
    cbn [p_page p_size p_err]; intros Hpage Hsize; try lia;
    match goal with
    | |- context [if (?a && ?b)%bool then _ else _] =>
        destruct (a && b)%bool eqn:Hc;
        [|exfalso; apply andb_false_iff in Hc; destruct Hc as [Hc|Hc];
          [apply Z.ltb_ge in Hc | apply Z.eqb_neq in Hc]; lia]
    end;
    match goal with
    | |- (if 0 <? ?n then _ else _) <> None =>
        assert ((0 <? n) = true) as ->; [|done]
    end;
    apply Z.ltb_lt; builder_len; lia.
Qed.

(** An absent parameter leaves its field at 0. *)
Lemma FormValue_absent (r : Request) (key : string) :
  Form r !! key = None -> FormValue r key = "".
Proof. unfold FormValue. intros ->. reflexivity. Qed.

Lemma getParams_page_default (r : Request) (p : pagination) :
  FormValue r "page" = "" -> p_page (getParams r p) = 0.
Proof.
  intros E. unfold getParams. rewrite E. cbn [len String.length Z.of_nat Z.eqb negb].
  destruct (0 <? len (FormValue r "size"));
    [destruct (strconv.Atoi (FormValue r "size")) as [v' [e'|]];
       [|destruct (v' <? 0)]|]; reflexivity.
Qed.

Lemma getParams_size_default (r : Request) (p : pagination) :
  FormValue r "size" = "" -> p_size (getParams r p) = 0.
Proof.
  intros E. unfold getParams. rewrite E. cbn [len String.length Z.of_nat Z.ltb Z.compare].
  destruct (negb (len (FormValue r "page") =? 0));
    [destruct (strconv.Atoi (FormValue r "page")) as [v [e|]];
       [|destruct (v <? 0)]|]; reflexivity.
Qed.

End ParamsFacts.

(** ** The handler, route by route *)

(** Running a bind whose first part is known. *)
Lemma M_bind_run {A B : Type} (m : M A) (f : A -> M B) (s s' : World) (x : A) :
  m s = (x, s') -> (m ≫= f) s = f x s'.
Proof. intros E. unfold mbind, M_bind. rewrite E. reflexivity. Qed.

Ltac run_in HW :=
  unfold dispatch, get, getPage, getAll,
    call_Get, call_GetPage, call_GetAll, ParseForm, http_Error, Write,
    WriteHeader, Header_Set, Header_Del, log_Print, emit, modify_w,
    mbind, mret, M_bind, M_ret in HW.

Ltac step_in HW := cbn -[insert delete] in HW.

(** Names the world [serve a r] ends in, so that the run is evaluated once,
    in the equation [HW], however often the goal mentions it. *)
Ltac name_run a r W HW :=
  remember (serve a r) as W eqn:HW;
  unfold serve, ServeHTTP in HW.

(** Enters [ServeHTTP] in [HW] with the result of [getContext] that the
    lemma [L] gives for a request of the kind [Hr]. *)
Ltac enter_in HW L Hr :=
  rewrite (M_bind_run _ _ _ _ _ (L _ Hr)) in HW;
  cbn [c_err c_first c_last c_pag] in HW.

Section ServiceFacts.
Context `{Imports}.

Lemma request_cases (r : Request) :
  firstRequest r \/ lastRequest r \/ measurementsRequest r \/ unknownRequest r.
Proof.
  unfold firstRequest, lastRequest, measurementsRequest, unknownRequest.
  destruct (HasPrefix _ firstPath); [by left|].
  destruct (HasPrefix _ lastPath); [by right; left|].
  destruct (String.eqb_spec (strings_ToLower (URL_Path r)) path); [by right; right; left; left|].
  destruct (String.eqb_spec (strings_ToLower (URL_Path r)) pathSlash);
    [by right; right; left; right|].
  by right; right; right.
Qed.

Lemma getContext_first (r : Request) (s : World) :
  firstRequest r ->
  getContext r s
  = ({| c_first := true; c_last := false; c_err := None; c_pag := None |}, s).
Proof. unfold firstRequest, getContext. intros ->. reflexivity. Qed.

Lemma getContext_last (r : Request) (s : World) :
  lastRequest r ->
  getContext r s
  = ({| c_first := false; c_last := true; c_err := None; c_pag := None |}, s).
Proof.
  unfold lastRequest, getContext. intros Hl.
  rewrite (first_last_disjoint _ Hl), Hl. reflexivity.
Qed.

Lemma getContext_unknown (r : Request) (s : World) :
  unknownRequest r ->
  getContext r s
  = ({| c_first := false; c_last := false; c_err := Some ErrBadParameter;
        c_pag := None |}, s).
Proof.
  unfold getContext. intros (-> & -> & Hp & Hs).
  apply String.eqb_neq in Hp, Hs. rewrite Hp, Hs. reflexivity.
Qed.

Lemma getContext_measurements (r : Request) (s : World) :
  measurementsRequest r ->
  getContext r s
  = ({| c_first := false; c_last := false;
        c_err := match ParseForm_err r with
                 | Some e => Some e
                 | None => ErrPag <$> p_err (NewPagination r)
                 end;
        c_pag := match ParseForm_err r, p_err (NewPagination r) with
                 | None, None => Some (NewPagination r)
                 | _, _ => None
                 end |},
     {| w := w s; trace := trace s ++ [EvParseForm] |}).
Proof.
  unfold getContext. intros Hm.
  destruct (path_no_prefix _ Hm) as [-> ->].
  assert ((strings_ToLower (URL_Path r) =? path)%string
          || (strings_ToLower (URL_Path r) =? pathSlash)%string = true) as ->.
  { destruct Hm as [-> | ->]; reflexivity. }
  unfold ParseForm, emit, mbind, mret, M_bind, M_ret.
  destruct (ParseForm_err r); [reflexivity|].
  destruct (p_err (NewPagination r)); reflexivity.
Qed.

(** A request that [getContext] refuses is answered 400 at once. *)
Lemma serve_unknown (a : PagerActor) (r : Request) :
  unknownRequest r ->
  Status (w (serve a r)) = Some StatusBadRequest
  /\ Body (w (serve a r)) = "bad request" +:+ LF
  /\ trace (serve a r) = [].
Proof.
  intros Hu. name_run a r W HW. enter_in HW (getContext_unknown r) Hu.
  run_in HW. step_in HW. by subst W.
Qed.

Lemma serve_measurements_rejected (a : PagerActor) (r : Request) :
  measurementsRequest r ->
  ParseForm_err r <> None \/ p_err (NewPagination r) <> None ->
  Status (w (serve a r)) = Some StatusBadRequest
  /\ Body (w (serve a r)) = "bad request" +:+ LF
  /\ trace (serve a r) = [EvParseForm].
Proof.
  intros Hm Hbad. name_run a r W HW. enter_in HW (getContext_measurements r) Hm.
  destruct (ParseForm_err r); [run_in HW; step_in HW; by subst W|].
  destruct (p_err (NewPagination r)); [run_in HW; step_in HW; by subst W|].
  destruct Hbad; done.
Qed.

(** The two routes that end in [get]. *)
Lemma serve_get (a : PagerActor) (r : Request) (key : string) :
  firstRequest r /\ key = model_First \/ lastRequest r /\ key = model_Last ->
  calls (trace (serve a r)) = [CallGet key]
  /\ (forall e, snd (Get a key) = Some e ->
        Status (w (serve a r)) = Some StatusInternalServerError
        /\ Body (w (serve a r)) = "internal error: " +:+ Error e +:+ LF)
  /\ (Get a key = (None, None) ->
        Status (w (serve a r)) = Some StatusInternalServerError
        /\ Body (w (serve a r))
           = "internal error: dumpsvc.get: unexpected nil result" +:+ LF)
  /\ (forall m j, Get a key = (Some m, None) ->
        json_Marshal (Some {| Data := OfMeasurement (Some m) |}) = (j, None) ->
        Status (w (serve a r)) = Some StatusOK
        /\ Body (w (serve a r)) = j
        /\ Header (w (serve a r)) !! "Content-Type" = Some ["application/json"]).
Proof.
  intros [[Hr ->] | [Hr ->]]; name_run a r W HW;
    [enter_in HW (getContext_first r) Hr | enter_in HW (getContext_last r) Hr];
    run_in HW; step_in HW;
    (match type of HW with
     | context [Get a ?k] => destruct (Get a k) as [[m|] [e|]]
     end);
    step_in HW;
    try (destruct (json_Marshal _) as [j [e'|]] eqn:Ej; step_in HW);
    subst W; cbn [w trace Status Body Header calls omap];
    repeat split; intros; simplify_eq/=; try done;
    try (rewrite Ej in *; simplify_eq/=; try done);
    by rewrite lookup_insert_eq.
Qed.

(** The paginated route. *)
Lemma serve_page (a : PagerActor) (r : Request) :
  measurementsRequest r ->
  ParseForm_err r = None ->
  p_err (NewPagination r) = None ->
  0 < p_size (NewPagination r) ->
  let page := p_page (NewPagination r) in
  let size := p_size (NewPagination r) in
  calls (trace (serve a r)) = [CallGetPage page size]
  /\ (forall e, snd (GetPage a page size) = Some e ->
        Status (w (serve a r)) = Some StatusInternalServerError
        /\ Body (w (serve a r)) = "internal error: " +:+ Error e +:+ LF)
  /\ (forall msm j, GetPage a page size = (msm, None) ->
        json_Marshal (Some {| Data := OfSlice msm |}) = (j, None) ->
        Status (w (serve a r)) = Some StatusOK
        /\ Body (w (serve a r)) = j
        /\ Header (w (serve a r)) !! "Content-Type" = Some ["application/json"]).
Proof.
  intros Hm Hf He Hs page size. name_run a r W HW.
  enter_in HW (getContext_measurements r) Hm.
  rewrite Hf, He in HW. cbn [fmap option_fmap option_map] in HW. unfold dispatch in HW.
  cbn [c_first c_last c_pag] in HW. unfold paginate in HW. rewrite He in HW.
  assert ((0 <? p_size (NewPagination r)) = true) as Hlt by by apply Z.ltb_lt.
  rewrite Hlt in HW.
  run_in HW. step_in HW. fold page size in HW.
  destruct (GetPage a page size) as [msm [e|]]; step_in HW;
    try (destruct (json_Marshal _) as [j [e'|]] eqn:Ej; step_in HW);
    subst W; cbn [w trace Status Body Header calls omap];
    repeat split; intros; simplify_eq/=; try done;
    try (rewrite Ej in *; simplify_eq/=; try done);
    by rewrite lookup_insert_eq.
Qed.

(** The unpaginated route. *)
Lemma serve_all (a : PagerActor) (r : Request) :
  measurementsRequest r ->
  ParseForm_err r = None ->
  p_err (NewPagination r) = None ->
  p_size (NewPagination r) = 0 ->
  calls (trace (serve a r)) = [CallGetAll]
  /\ (forall e, snd (GetAll a) = Some e ->
        Status (w (serve a r)) = Some StatusInternalServerError
        /\ Body (w (serve a r)) = "internal error: " +:+ Error e +:+ LF)
  /\ (forall msm j, GetAll a = (msm, None) ->
        json_Marshal (Some {| Data := OfSlice msm |}) = (j, None) ->
        Status (w (serve a r)) = Some StatusOK
        /\ Body (w (serve a r)) = j
        /\ Header (w (serve a r)) !! "Content-Type" = Some ["application/json"]).
Proof.
  intros Hm Hf He Hs. name_run a r W HW.
  enter_in HW (getContext_measurements r) Hm.
  rewrite Hf, He in HW. cbn [fmap option_fmap option_map] in HW. unfold dispatch in HW.
  cbn [c_first c_last c_pag] in HW. unfold paginate in HW. rewrite He, Hs in HW.
  cbn [Z.ltb Z.compare] in HW. run_in HW. step_in HW.
  destruct (GetAll a) as [msm [e|]]; step_in HW;
    try (destruct (json_Marshal _) as [j [e'|]] eqn:Ej; step_in HW);
    subst W; cbn [w trace Status Body Header calls omap];
    repeat split; intros; simplify_eq/=; try done;
    try (rewrite Ej in *; simplify_eq/=; try done);
    by rewrite lookup_insert_eq.
Qed.

End ServiceFacts.

(** ** The claims on the service *)

Section ServiceClaims.
Context `{Imports}.

(** C1. A request to the measurements path whose parsed page is greater
    than 0 while its parsed size is 0 is answered with the bad-request
    status 400, and the handler makes no call on the pager actor (neither
    [Get], nor [GetPage], nor [GetAll]). *)
Theorem page_without_size_is_rejected (a : PagerActor) (r : Request) :
  measurementsRequest r ->
  0 < p_page (NewPagination r) ->
  p_size (NewPagination r) = 0 ->
  Status (w (serve a r)) = Some StatusBadRequest
  /\ Body (w (serve a r)) = "bad request" +:+ LF
  /\ calls (trace (serve a r)) = [].
Proof.
  intros Hm Hpage Hsize.
  destruct (serve_measurements_rejected a r Hm) as (Hst & Hb & Ht).
  - right. by apply getParams_page_without_size.
  - rewrite Ht. done.
Qed.

(** C2, as amended. When a first or last lookup yields no measurement, be it
    that [Get] returns an error such as not-found or that it returns [nil]
    without an error, the handler answers with the server-error status 500
    and a body [internal error: ...]: the same signal as for any other
    failure, told apart by the text of the message only. *)
Theorem no_data_is_a_server_error (a : PagerActor) (r : Request) (key : string)
    (msm : ptr Measurement) (err : option error) :
  firstRequest r /\ key = model_First \/ lastRequest r /\ key = model_Last ->
  Get a key = (msm, err) ->
  msm = None \/ err <> None ->
  Status (w (serve a r)) = Some StatusInternalServerError
  /\ exists e, Body (w (serve a r)) = "internal error: " +:+ Error e +:+ LF.
Proof.
  intros Hr Hg Hno.
  destruct (serve_get a r key Hr) as (_ & Herr & Hnil & _).
  destruct err as [e|].
  - destruct (Herr e) as [Hs Hb]; [by rewrite Hg|]. eauto.
  - destruct Hno as [-> | ?]; [|done].
    destruct (Hnil Hg) as [Hs Hb].
    split; [done|]. by exists (errorString "dumpsvc.get: unexpected nil result").
Qed.

(** C3. A request to the measurements path whose parameters are valid and
    whose size is 0, given or defaulted, is served by exactly one call of
    [GetAll]; when that call and the encoding succeed, the response is 200
    and its body is the encoding of the whole sequence [GetAll] returned. *)
Theorem size_zero_serves_everything (a : PagerActor) (r : Request) :
  measurementsRequest r ->
  ParseForm_err r = None ->
  p_err (NewPagination r) = None ->
  p_size (NewPagination r) = 0 ->
  calls (trace (serve a r)) = [CallGetAll]
  /\ forall msm j,
       GetAll a = (msm, None) ->
       json_Marshal (Some {| Data := OfSlice msm |}) = (j, None) ->
       Status (w (serve a r)) = Some StatusOK /\ Body (w (serve a r)) = j.
Proof.
  intros Hm Hf He Hs.
  destruct (serve_all a r Hm Hf He Hs) as (Hc & _ & Hok).
  split; [done|]. intros msm j Hg Hj. destruct (Hok msm j Hg Hj) as (? & ? & _). done.
Qed.

(** C5. The handler routes by the path: a first path calls [Get] with the
    key [First]; a last path calls [Get] with the key [Last]; a request to
    the measurements path with valid parameters calls [GetPage(page, size)]
    when the size is greater than 0, and [GetAll] otherwise. Each time this
    is the only call on the pager actor. *)
Theorem routing (a : PagerActor) (r : Request) :
  (firstRequest r -> calls (trace (serve a r)) = [CallGet model_First])
  /\ (lastRequest r -> calls (trace (serve a r)) = [CallGet model_Last])
  /\ (measurementsRequest r ->
      ParseForm_err r = None ->
      p_err (NewPagination r) = None ->
      (0 < p_size (NewPagination r) ->
       calls (trace (serve a r))
       = [CallGetPage (p_page (NewPagination r)) (p_size (NewPagination r))])
      /\ (~ 0 < p_size (NewPagination r) ->
          calls (trace (serve a r)) = [CallGetAll])).
Proof.
  split; [|split].
  - intros Hr. apply (serve_get a r model_First). by left.
  - intros Hr. apply (serve_get a r model_Last). by right.
  - intros Hm Hf He. split; intros Hs.
    + apply (serve_page a r Hm Hf He Hs).
    + apply (serve_all a r Hm Hf He).
      pose proof (getParams_nonneg r new_pagination) as [_ Hn].
      unfold NewPagination in *. lia.
Qed.

(** C6, as amended. On the measurements path, a page or size value that is
    not empty (the first value of the parameter, as [FormValue] gives it)
    and is negative or does not parse as an integer is answered 400, and so
    is a path the service does not know; an error the pager actor returns on
    the call the handler makes is answered 500 with the body
    [internal error: ] followed by the text of the error. An empty value is
    taken as an absent parameter. *)
Theorem bad_parameters_and_failures (a : PagerActor) (r : Request) :
  (measurementsRequest r ->
   (FormValue r "page" <> ""
    /\ (snd (strconv.Atoi (FormValue r "page")) <> None
        \/ fst (strconv.Atoi (FormValue r "page")) < 0))
   \/ (FormValue r "size" <> ""
       /\ (snd (strconv.Atoi (FormValue r "size")) <> None
           \/ fst (strconv.Atoi (FormValue r "size")) < 0)) ->
   Status (w (serve a r)) = Some StatusBadRequest)
  /\ (unknownRequest r -> Status (w (serve a r)) = Some StatusBadRequest)
  /\ (forall c e,
        c ∈ calls (trace (serve a r)) ->
        call_err a c = Some e ->
        Status (w (serve a r)) = Some StatusInternalServerError
        /\ Body (w (serve a r)) = "internal error: " +:+ Error e +:+ LF).
Proof.
  split; [|split].
  - intros Hm Hbad. apply (serve_measurements_rejected a r Hm). right.
    destruct Hbad as [[Hne Hb] | [Hne Hb]].
    + by apply getParams_page_error.
    + by apply getParams_size_error.
  - intros Hu. apply (serve_unknown a r Hu).
  - intros c e Hin Herr.
    destruct (request_cases r) as [Hr | [Hr | [Hr | Hr]]].
    + destruct (serve_get a r model_First) as (Hc & Hfail & _); [by left|].
      rewrite Hc in Hin. apply list_elem_of_singleton in Hin as ->. by apply Hfail.
    + destruct (serve_get a r model_Last) as (Hc & Hfail & _); [by right|].
      rewrite Hc in Hin. apply list_elem_of_singleton in Hin as ->. by apply Hfail.
    + destruct (ParseForm_err r) as [pe|] eqn:Hf.
      { destruct (serve_measurements_rejected a r Hr) as (_ & _ & Ht).
        - left. by rewrite Hf.
        - rewrite Ht in Hin. by apply elem_of_nil in Hin. }
      destruct (p_err (NewPagination r)) as [pe|] eqn:He.
      { destruct (serve_measurements_rejected a r Hr) as (_ & _ & Ht).
        - right. by rewrite He.
        - rewrite Ht in Hin. by apply elem_of_nil in Hin. }
      destruct (Z.lt_ge_cases 0 (p_size (NewPagination r))) as [Hs | Hs].
      * destruct (serve_page a r Hr Hf He Hs) as (Hc & Hfail & _).
        rewrite Hc in Hin. apply list_elem_of_singleton in Hin as ->. by apply Hfail.
      * pose proof (getParams_nonneg r new_pagination) as [_ Hn].
        fold (NewPagination r) in Hn.
        destruct (serve_all a r Hr Hf He) as (Hc & Hfail & _); [lia|].
        rewrite Hc in Hin. apply list_elem_of_singleton in Hin as ->. by apply Hfail.
    + destruct (serve_unknown a r Hr) as (_ & _ & Ht).
      rewrite Ht in Hin. by apply elem_of_nil in Hin.
Qed.

(** C8. When the page parameter is absent the parsed page is 0, when the
    size parameter is absent the parsed size is 0, and neither is ever
    negative. *)
Theorem absent_parameters_default_to_zero (r : Request) (p : pagination) :
  (Form r !! "page" = None -> p_page (getParams r p) = 0)
  /\ (Form r !! "size" = None -> p_size (getParams r p) = 0)
  /\ 0 <= p_page (getParams r p)
  /\ 0 <= p_size (getParams r p).
Proof.
  split; [|split].
  - intros Ha. by apply getParams_page_default, FormValue_absent.
  - intros Ha. by apply getParams_size_default, FormValue_absent.
  - apply getParams_nonneg.
Qed.

(** C9. The path is classified by prefix after lowering: whatever follows
    [/measurements/first] the request is a first lookup, whatever follows
    [/measurements/last] it is a last lookup, and a path that has neither
    prefix and is neither [/measurements] nor [/measurements/] is answered
    400 with no event at all: the form is not parsed and the pager actor is
    not called. *)
Theorem path_classification (a : PagerActor) (r : Request) :
  (forall rest,
     strings_ToLower (URL_Path r) = firstPath +:+ rest ->
     calls (trace (serve a r)) = [CallGet model_First])
  /\ (forall rest,
        strings_ToLower (URL_Path r) = lastPath +:+ rest ->
        calls (trace (serve a r)) = [CallGet model_Last])
  /\ (unknownRequest r ->
      Status (w (serve a r)) = Some StatusBadRequest
      /\ Body (w (serve a r)) = "bad request" +:+ LF
      /\ trace (serve a r) = []).
Proof.
  split; [|split].
  - intros rest Hp. apply (serve_get a r model_First). left. split; [|done].
    unfold firstRequest. rewrite Hp. apply HasPrefix_app.
  - intros rest Hp. apply (serve_get a r model_Last). right. split; [|done].
    unfold lastRequest. rewrite Hp. apply HasPrefix_app.
  - apply serve_unknown.
Qed.

(** C10. When [Get] returns a [nil] measurement and a [nil] error on a first
    or last request, the handler answers 500, reporting an unexpected nil
    result, and not 200. *)
Theorem nil_result_is_a_server_error (a : PagerActor) (r : Request) (key : string) :
  firstRequest r /\ key = model_First \/ lastRequest r /\ key = model_Last ->
  Get a key = (None, None) ->
  Status (w (serve a r)) = Some StatusInternalServerError
  /\ Body (w (serve a r))
     = "internal error: dumpsvc.get: unexpected nil result" +:+ LF
  /\ Status (w (serve a r)) <> Some StatusOK.
Proof.
  intros Hr Hg.
  destruct (serve_get a r key Hr) as (_ & _ & Hnil & _).
  destruct (Hnil Hg) as [Hs Hb]. rewrite Hs. done.
Qed.

End ServiceClaims.

(** ** The cache dumper *)

Section DumpClaims.
Context `{Imports} {R W : Type} `{!MeasurementRepo R} `{!io_Writer W}.



End DumpClaims.

(** ** The pager actor of the specification *)

Example spec_scenario_pages :
  SpecModel.GetPage ["A"; "B"; "C"] 0 2 = inl ["A"; "B"]
  /\ SpecModel.GetPage ["A"; "B"; "C"] 1 2 = inl ["C"]
  /\ SpecModel.GetPage ["A"; "B"; "C"] 2 2 = inl [].
Proof. repeat split. Qed.

(** C4. For [0 <= page] and [0 < size], [GetPage] succeeds with the part of
    the history at the indices from [page * size] up to, and without,
    [page * size + size], as far as the history reaches: at most [size]
    elements, and none, with no error, when [page * size] is at or beyond
    the end. *)
Theorem GetPage_is_the_clamped_slice {Measurement : Type}
    (repo : list Measurement) (page size : Z) :
  0 <= page ->
  0 < size ->
  exists l,
    SpecModel.GetPage repo page size = inl l
    /\ (forall i : nat,
          l !! i = if decide (Z.of_nat i < size)
                   then repo !! (Z.to_nat (page * size) + i)%nat
                   else None)
    /\ Z.of_nat (length l) <= size
    /\ (Z.of_nat (length repo) <= page * size -> l = []).
Proof.
  intros Hp Hs. eexists. unfold SpecModel.GetPage, SpecModel.GetRange.
  assert ((page <? 0) = false) as -> by by apply Z.ltb_ge.
  assert ((size <? 0) = false) as -> by (apply Z.ltb_ge; lia).
  assert ((size =? 0) = false) as -> by (apply Z.eqb_neq; lia).
  rewrite andb_false_r. cbn [orb]. split; [reflexivity|]. split; [|split].
  - intros i. rewrite lookup_take, lookup_drop.
    destruct (decide (i < Z.to_nat size)%nat), (decide (Z.of_nat i < size));
      try reflexivity; lia.
  - rewrite length_take. lia.
  - intros Hend. rewrite drop_ge; [apply take_nil | lia].
Qed.

(** ** The claims on concrete requests *)

Ltac by_run := vm_compute; first [reflexivity | discriminate | lia | done].

Lemma page_without_size_is_rejected_witness :
  @measurementsRequest sample r_page_no_size
  /\ 0 < p_page (@NewPagination sample r_page_no_size)
  /\ p_size (@NewPagination sample r_page_no_size) = 0
  /\ Status (w (@serve sample (listActor [1; 2; 3]) r_page_no_size))
     = Some StatusBadRequest
  /\ calls (trace (@serve sample (listActor [1; 2; 3]) r_page_no_size)) = [].
Proof.
  assert (@measurementsRequest sample r_page_no_size) as Hm by (right; reflexivity).
  assert (0 < p_page (@NewPagination sample r_page_no_size)) as Hp by by_run.
  assert (p_size (@NewPagination sample r_page_no_size) = 0) as Hs by by_run.
  destruct (@page_without_size_is_rejected sample (listActor [1; 2; 3])
              r_page_no_size Hm Hp Hs) as (Hst & _ & Hc).
  repeat split; assumption.
Defined.

(** C2, as stated, fails: on an empty repository the lookup of the first
    element is answered with the very status of a storage fault, 500. *)
Lemma not_found_is_answered_500 :
  @firstRequest sample r_first
  /\ Get (listActor []) (@model_First sample) = (None, Some notFound)
  /\ Status (w (@serve sample (listActor []) r_first))
     = Some StatusInternalServerError
  /\ Status (w (@serve sample (listActor []) r_first))
     = Status (w (@serve sample brokenActor r_first))
  /\ ~ (Status (w (@serve sample (listActor []) r_first))
        <> Some StatusInternalServerError).
Proof.
  split; [reflexivity|]. split; [reflexivity|].
  split; [by_run|]. split; [by_run|].
  intros Hd. apply Hd. by_run.
Qed.

Lemma no_data_is_a_server_error_witness :
  Status (w (@serve sample (listActor []) r_first))
  = Some StatusInternalServerError
  /\ exists e,
       Body (w (@serve sample (listActor []) r_first))
       = "internal error: " +:+ @Error sample e +:+ LF.
Proof.
  apply (@no_data_is_a_server_error sample (listActor []) r_first "first"
           None (Some notFound)).
  - left. split; reflexivity.
  - reflexivity.
  - left. reflexivity.
Defined.

Lemma size_zero_serves_everything_witness :
  calls (trace (@serve sample (listActor [1; 2; 3]) r_all)) = [CallGetAll]
  /\ Status (w (@serve sample (listActor [1; 2; 3]) r_all)) = Some StatusOK
  /\ Body (w (@serve sample (listActor [1; 2; 3]) r_all))
     = "{" +:+ DQ +:+ "Data" +:+ DQ +:+ ":[1,2,3]}".
Proof.
  destruct (@size_zero_serves_everything sample (listActor [1; 2; 3]) r_all)
    as [Hc Hok].
  - left. reflexivity.
  - reflexivity.
  - by_run.
  - by_run.
  - split; [exact Hc|].
    apply (Hok [Some 1; Some 2; Some 3]); reflexivity.
Defined.

Lemma routing_witness :
  calls (trace (@serve sample (listActor [1; 2; 3]) r_first)) = [CallGet "first"]
  /\ calls (trace (@serve sample (listActor [1; 2; 3]) r_last)) = [CallGet "last"]
  /\ calls (trace (@serve sample (listActor [1; 2; 3]) r_page)) = [CallGetPage 1 2]
  /\ calls (trace (@serve sample (listActor [1; 2; 3]) r_all)) = [CallGetAll].
Proof.
  split; [|split; [|split]].
  - apply (proj1 (@routing sample (listActor [1; 2; 3]) r_first)). reflexivity.
  - apply (proj1 (proj2 (@routing sample (listActor [1; 2; 3]) r_last))). reflexivity.
  - apply (proj2 (proj2 (@routing sample (listActor [1; 2; 3]) r_page))).
    + right. reflexivity.
    + reflexivity.
    + by_run.
    + by_run.
  - apply (proj2 (proj2 (@routing sample (listActor [1; 2; 3]) r_all))).
    + left. reflexivity.
    + reflexivity.
    + by_run.
    + by_run.
Defined.

(** C6, as stated, fails: a page parameter that is present with an empty
    value does not parse as an integer, and the request is served. *)
Lemma empty_page_value_is_served :
  @measurementsRequest sample r_empty_page
  /\ Form r_empty_page !! "page" = Some [""]
  /\ snd (strconv.Atoi "") <> None
  /\ Status (w (@serve sample (listActor [1; 2; 3]) r_empty_page)) = Some StatusOK
  /\ Status (w (@serve sample (listActor [1; 2; 3]) r_empty_page))
     <> Some StatusBadRequest
  /\ calls (trace (@serve sample (listActor [1; 2; 3]) r_empty_page)) = [CallGetAll].
Proof.
  split; [right; reflexivity|]. split; [by_run|]. split; [by_run|].
  split; [by_run|]. split; by_run.
Qed.

Lemma bad_parameters_and_failures_witness :
  Status (w (@serve sample (listActor [1; 2; 3]) r_negative)) = Some StatusBadRequest
  /\ Status (w (@serve sample (listActor [1; 2; 3]) r_unknown)) = Some StatusBadRequest
  /\ Status (w (@serve sample brokenActor r_all)) = Some StatusInternalServerError
  /\ Body (w (@serve sample brokenActor r_all))
     = "internal error: storage fault" +:+ LF.
Proof.
  split; [|split].
  - apply (proj1 (@bad_parameters_and_failures sample (listActor [1; 2; 3]) r_negative)).
    + right. reflexivity.
    + left. split; [by_run|]. right. by_run.
  - apply (proj1 (proj2 (@bad_parameters_and_failures sample (listActor [1; 2; 3])
                           r_unknown))).
    repeat split; by_run.
  - apply (proj2 (proj2 (@bad_parameters_and_failures sample brokenActor r_all))
             CallGetAll (errorString "storage fault")).
    + vm_compute. constructor.
    + reflexivity.
Defined.

Lemma absent_parameters_default_to_zero_witness :
  p_page (@getParams sample r_all new_pagination) = 0
  /\ p_size (@getParams sample r_all new_pagination) = 0.
Proof.
  split.
  - apply (proj1 (@absent_parameters_default_to_zero sample r_all new_pagination)).
    by_run.
  - apply (proj1 (proj2 (@absent_parameters_default_to_zero sample r_all
                           new_pagination))).
    by_run.
Defined.

Lemma path_classification_witness :
  calls (trace (@serve sample (listActor [1; 2; 3]) r_first)) = [CallGet "first"]
  /\ calls (trace (@serve sample (listActor [1; 2; 3]) r_last)) = [CallGet "last"]
  /\ trace (@serve sample (listActor [1; 2; 3]) r_unknown) = [].
Proof.
  split; [|split].
  - apply (proj1 (@path_classification sample (listActor [1; 2; 3]) r_first) "").
    reflexivity.
  - apply (proj1 (proj2 (@path_classification sample (listActor [1; 2; 3]) r_last))
             "/7").
    reflexivity.
  - apply (proj2 (proj2 (@path_classification sample (listActor [1; 2; 3]) r_unknown))).
    repeat split; by_run.
Defined.

(** A pager actor whose [Get] returns neither a measurement nor an error. *)
Lemma nil_result_is_a_server_error_witness :
  let a := @mkPagerActor sample (fun _ => (None, None)) (fun _ _ => ([], None)) ([], None) in
  Status (w (@serve sample a r_last)) = Some StatusInternalServerError
  /\ Body (w (@serve sample a r_last))
     = "internal error: dumpsvc.get: unexpected nil result" +:+ LF
  /\ Status (w (@serve sample a r_last)) <> Some StatusOK.
Proof.
  intros a.
  apply (@nil_result_is_a_server_error sample a r_last "last").
  - right. split; reflexivity.
  - reflexivity.
Defined.


Lemma GetPage_is_the_clamped_slice_witness :
  exists l,
    SpecModel.GetPage [10; 20; 30] 1 2 = inl l
    /\ (forall i : nat,
          l !! i = if decide (Z.of_nat i < 2)
                   then [10; 20; 30] !! (Z.to_nat (1 * 2) + i)%nat
                   else None)
    /\ Z.of_nat (length l) <= 2
    /\ (Z.of_nat (length [10; 20; 30]) <= 1 * 2 -> l = []).
Proof.
  apply (@GetPage_is_the_clamped_slice Z [10; 20; 30] 1 2); lia.
Defined.

(** * Further properties of the code *)

(** ** getParams *)

Section ParamsMore.
Context `{Imports}.

(** [getParams] stores what [strconv.Atoi] reads: a value that is not empty
    and parses to an integer that is not negative becomes the field. *)
Theorem getParams_stores_parsed_values (r : Request) (p : pagination) :
  (forall v, FormValue r "page" <> "" ->
     strconv.Atoi (FormValue r "page") = (v, None) -> 0 <= v ->
     p_page (getParams r p) = v)
  /\ (forall v, FormValue r "size" <> "" ->
        strconv.Atoi (FormValue r "size") = (v, None) -> 0 <= v ->
        p_size (getParams r p) = v).
Proof.
  split; intros v Hne Hv Hpos; unfold getParams.
  - assert (negb (len (FormValue r "page") =? 0) = true) as ->.
    { apply negb_true_iff, Z.eqb_neq. by rewrite len_0_iff. }
    rewrite Hv. assert ((v <? 0) = false) as -> by by apply Z.ltb_ge.
    destruct (0 <? len (FormValue r "size"));
      [destruct (strconv.Atoi (FormValue r "size")) as [v' [e'|]];
         [|destruct (v' <? 0)]|]; reflexivity.
  - assert ((0 <? len (FormValue r "size")) = true) as ->.
    { apply Z.ltb_lt. pose proof (len_nonneg (FormValue r "size")).
      pose proof (proj1 (len_0_iff (FormValue r "size"))).
      destruct (Z.eq_dec (len (FormValue r "size")) 0); [tauto|lia]. }
    rewrite Hv. assert ((v <? 0) = false) as -> by by apply Z.ltb_ge.
    destruct (negb (len (FormValue r "page") =? 0));
      [destruct (strconv.Atoi (FormValue r "page")) as [v' [e'|]];
         [|destruct (v' <? 0)]|]; reflexivity.
Qed.

Lemma acceptable_dec (raw : string) : acceptable raw \/ (raw <> ""
  /\ (snd (strconv.Atoi raw) <> None \/ fst (strconv.Atoi raw) < 0)).
Proof.
  unfold acceptable. destruct (decide (raw = "")) as [->|Hne]; [by left; left|].
  destruct (strconv.Atoi raw) as [v [e|]]; cbn [fst snd].
  - right. split; [done|]. by left.
  - destruct (Z.lt_ge_cases v 0); [right | left; right]; split; try done. by right.
Qed.

(** [NewPagination] sets no error exactly when both values are acceptable
    and the page is not set without a size. *)
Theorem NewPagination_error_free_iff (r : Request) :
  p_err (NewPagination r) = None
  <-> acceptable (FormValue r "page")
      /\ acceptable (FormValue r "size")
      /\ ~ (0 < p_page (NewPagination r) /\ p_size (NewPagination r) = 0).
Proof.
  split.
  - intros He. split; [|split].
    + destruct (acceptable_dec (FormValue r "page")) as [?|[Hne Hbad]]; [done|].
      by destruct (getParams_page_error r new_pagination Hne Hbad).
    + destruct (acceptable_dec (FormValue r "size")) as [?|[Hne Hbad]]; [done|].
      by destruct (getParams_size_error r new_pagination Hne Hbad).
    + intros [Hp Hs].
      by destruct (getParams_page_without_size r new_pagination Hp Hs).
  - unfold NewPagination, getParams, acceptable.
    intros (Hp & Hs & Hn). revert Hn.
    destruct (negb (len (FormValue r "page") =? 0)) eqn:Elp.
    + destruct Hp as [Hp | [Hp1 Hp2]].
      { rewrite Hp in Elp. discriminate. }
      destruct (strconv.Atoi (FormValue r "page")) as [v [e|]]; [discriminate|].
      cbn [fst] in Hp2. assert ((v <? 0) = false) as -> by by apply Z.ltb_ge.
      destruct (0 <? len (FormValue r "size")) eqn:Els.
      * destruct Hs as [Hs | [Hs1 Hs2]].
        { rewrite Hs in Els. discriminate. }
        destruct (strconv.Atoi (FormValue r "size")) as [v' [e'|]]; [discriminate|].
        cbn [fst] in Hs2. assert ((v' <? 0) = false) as -> by by apply Z.ltb_ge.
        cbn [p_page p_size p_err]. intros Hn.
        destruct ((0 <? v) && (v' =? 0)) eqn:Ec; [|reflexivity].
        apply andb_true_iff in Ec as [?%Z.ltb_lt ?%Z.eqb_eq]. by destruct Hn.
      * cbn [p_page p_size p_err]. intros Hn.
        destruct ((0 <? v) && (0 =? 0)) eqn:Ec; [|reflexivity].
        apply andb_true_iff in Ec as [?%Z.ltb_lt _]. by destruct Hn.
    + destruct (0 <? len (FormValue r "size")) eqn:Els.
      * destruct Hs as [Hs | [Hs1 Hs2]].
        { rewrite Hs in Els. discriminate. }
        destruct (strconv.Atoi (FormValue r "size")) as [v' [e'|]]; [discriminate|].
        cbn [fst] in Hs2. assert ((v' <? 0) = false) as -> by by apply Z.ltb_ge.
        reflexivity.
      * reflexivity.
Qed.

(** The two values are checked one after the other, and a bad page does
    not stop the check of the size: when neither parses, the error text
    holds the line of the page and then the line of the size. *)
Theorem getParams_reports_both_values (r : Request) (p : pagination)
    (vp vs : Z) (ep es : error) :
  FormValue r "page" <> "" ->
  FormValue r "size" <> "" ->
  strconv.Atoi (FormValue r "page") = (vp, Some ep) ->
  strconv.Atoi (FormValue r "size") = (vs, Some es) ->
  p_page (getParams r p) = 0
  /\ p_size (getParams r p) = 0
  /\ p_err (getParams r p)
     = Some {| Builder :=
                 (TAB +:+ "page parameter error: " +:+ Error ep +:+ LF)
                 +:+ (TAB +:+ "size parameter error: " +:+ Error es +:+ LF) |}.
Proof.
  intros Hnp Hns Hp Hs. unfold getParams.
  assert (negb (len (FormValue r "page") =? 0) = true) as ->.
  { apply negb_true_iff, Z.eqb_neq. by rewrite len_0_iff. }
  assert ((0 <? len (FormValue r "size")) = true) as ->.
  { apply Z.ltb_lt. pose proof (len_nonneg (FormValue r "size")).
    pose proof (proj1 (len_0_iff (FormValue r "size"))).
    destruct (Z.eq_dec (len (FormValue r "size")) 0); [tauto|lia]. }
  rewrite Hp, Hs. cbn [p_page p_size p_err andb Z.ltb Z.compare].
  split; [done|]. split; [done|].
  match goal with
  | |- (if 0 <? ?n then _ else _) = _ => assert ((0 <? n) = true) as ->
  end.
  { apply Z.ltb_lt. builder_len. lia. }
  reflexivity.
Qed.

End ParamsMore.

(** ** The handler as a whole *)

(** Every way through [ServeHTTP]: the kind of path, the outcome of the
    parsing, the result of the pager actor and of the encoding. *)
Ltac all_routes a r :=
  let Hr := fresh "Hr" in
  let W := fresh "W" in
  let HW := fresh "HW" in
  name_run a r W HW;
  destruct (request_cases r) as [Hr | [Hr | [Hr | Hr]]];
  [ enter_in HW (getContext_first r) Hr
  | enter_in HW (getContext_last r) Hr
  | enter_in HW (getContext_measurements r) Hr
  | enter_in HW (getContext_unknown r) Hr ];
  [ destruct (Get a model_First) as [[?m|] [?e|]] eqn:?
  | destruct (Get a model_Last) as [[?m|] [?e|]] eqn:?
  | destruct (ParseForm_err r) as [?pe|] eqn:?;
    [| destruct (p_err (NewPagination r)) as [?pe|] eqn:?;
       [| cbn [fmap option_fmap option_map] in HW; unfold dispatch in HW;
          cbn [c_first c_last c_pag] in HW; unfold paginate in HW;
          match goal with
          | E : p_err (NewPagination r) = None |- _ => rewrite E in HW
          end;
          destruct (0 <? p_size (NewPagination r)) eqn:?;
          [ destruct (GetPage a (p_page (NewPagination r)) (p_size (NewPagination r)))
              as [?msm [?e|]] eqn:?
          | destruct (GetAll a) as [?msm [?e|]] eqn:? ] ] ]
  | ];
  run_in HW; step_in HW;
  repeat match goal with
         | E : ?x = (_, _) |- _ =>
             match type of HW with context [x] => rewrite E in HW end
         end;
  step_in HW;
  try match type of HW with
      | context [json_Marshal ?mr] =>
          destruct (json_Marshal mr) as [?j [?e|]] eqn:?
      end;
  step_in HW;
  subst W; cbn [w trace Status Body Header calls omap].

Section HandlerMore.
Context `{Imports}.

(** The ways a run of [ServeHTTP] can end: the request is refused without a
    call, or one call is made and the answer is an error with its cause or
    the encoding of what the call returned. *)
Lemma serve_inv (a : PagerActor) (r : Request) :
  (calls (trace (serve a r)) = []
   /\ Status (w (serve a r)) = Some StatusBadRequest
   /\ Body (w (serve a r)) = "bad request" +:+ LF
   /\ Header (w (serve a r)) !! "Content-Type" = Some ["text/plain; charset=utf-8"]
   /\ Header (w (serve a r)) !! "X-Content-Type-Options" = Some ["nosniff"])
  \/ exists c,
       calls (trace (serve a r)) = [c]
       /\ (forall page size,
             c = CallGetPage page size ->
             measurementsRequest r
             /\ page = p_page (NewPagination r)
             /\ size = p_size (NewPagination r)
             /\ 0 < size)
       /\ ((exists e,
              (call_err a c = Some e
               \/ (exists key, c = CallGet key /\ Get a key = (None, None)
                               /\ e = errorString "dumpsvc.get: unexpected nil result")
               \/ (call_err a c = None
                   /\ snd (json_Marshal (Some {| Data := call_data a c |})) = Some e))
              /\ Status (w (serve a r)) = Some StatusInternalServerError
              /\ Body (w (serve a r)) = "internal error: " +:+ Error e +:+ LF
              /\ Header (w (serve a r)) !! "Content-Type"
                 = Some ["text/plain; charset=utf-8"]
              /\ Header (w (serve a r)) !! "X-Content-Type-Options" = Some ["nosniff"])
           \/ (exists j,
                 call_err a c = None
                 /\ (forall key, c = CallGet key -> fst (Get a key) <> None)
                 /\ json_Marshal (Some {| Data := call_data a c |}) = (j, None)
                 /\ Status (w (serve a r)) = Some StatusOK
                 /\ Body (w (serve a r)) = j
                 /\ Header (w (serve a r)) !! "Content-Type" = Some ["application/json"]
                 /\ Header (w (serve a r)) !! "X-Content-Type-Options" = None)).
Proof.
  all_routes a r;
    first
      [ (* refused *)
        left; repeat split; by simplify_map_eq
      | (* one call *)
        right; eexists; (split; [reflexivity|]);
        (split;
           [intros page size Hc; simplify_eq;
            repeat split; try done;
            match goal with E : (0 <? _) = true |- _ => by apply Z.ltb_lt in E end|]);
        cbn [call_err call_data];
        repeat match goal with
               | E : ?x = (_, _) |- context [?x] => rewrite E
               end;
        cbn [fst snd];
        first
          [ (* the encoding is sent *)
            right; eexists;
            (split; [reflexivity|]);
            (split;
               [intros key Hk; simplify_eq;
                by match goal with E : Get a _ = (Some _, None) |- _ => rewrite E end|]);
            (split; [first [eassumption | reflexivity]|]);
            repeat split; by simplify_map_eq
          | (* a lookup returned nothing *)
            left; exists (errorString "dumpsvc.get: unexpected nil result");
            (split; [right; left; eexists; by repeat split|]);
            repeat split; by simplify_map_eq
          | (* the call or the encoding failed *)
            match goal with
            | e : error |- _ =>
                left; exists e;
                (split;
                   [first
                      [ by left
                      | right; right; split; [reflexivity|];
                        repeat match goal with
                               | E : ?x = (_, _) |- context [?x] => rewrite E
                               end;
                        reflexivity ]|]);
                repeat split; by simplify_map_eq
            end ] ].
Qed.

(** [ServeHTTP] always writes a status, which is 200, 400 or 500, and it
    calls the pager actor at most once. *)
Theorem one_status_and_at_most_one_call (a : PagerActor) (r : Request) :
  (Status (w (serve a r)) = Some StatusOK
   \/ Status (w (serve a r)) = Some StatusBadRequest
   \/ Status (w (serve a r)) = Some StatusInternalServerError)
  /\ (length (calls (trace (serve a r))) <= 1)%nat.
Proof.
  destruct (serve_inv a r)
    as [(Hc & Hs & _) | (c & Hc & _ & [(e & _ & Hs & _) | (j & _ & _ & _ & Hs & _)])];
    rewrite Hc, Hs; cbn [length]; split; auto; lia.
Qed.

(** The answer is 400 exactly when the handler makes no call on the pager
    actor, and the body of a 400 is always [bad request]: the text of the
    pagination error never reaches the client. *)
Theorem bad_request_iff_no_call (a : PagerActor) (r : Request) :
  (Status (w (serve a r)) = Some StatusBadRequest
   <-> calls (trace (serve a r)) = [])
  /\ (Status (w (serve a r)) = Some StatusBadRequest ->
      Body (w (serve a r)) = "bad request" +:+ LF).
Proof.
  destruct (serve_inv a r)
    as [(Hc & Hs & Hb & _)
       | (c & Hc & _ & [(e & _ & Hs & _) | (j & _ & _ & _ & Hs & _)])];
    rewrite Hc, Hs; repeat split; intros; by simplify_eq.
Qed.

(** The content type follows the status: a 200 is JSON and carries no
    [X-Content-Type-Options]; any other answer is plain text with
    [nosniff], also when the encoding fails after the JSON content type
    was set. *)
Theorem content_type_follows_status (a : PagerActor) (r : Request) :
  (Status (w (serve a r)) = Some StatusOK ->
   Header (w (serve a r)) !! "Content-Type" = Some ["application/json"]
   /\ Header (w (serve a r)) !! "X-Content-Type-Options" = None)
  /\ (Status (w (serve a r)) <> Some StatusOK ->
      Header (w (serve a r)) !! "Content-Type" = Some ["text/plain; charset=utf-8"]
      /\ Header (w (serve a r)) !! "X-Content-Type-Options" = Some ["nosniff"]).
Proof.
  destruct (serve_inv a r)
    as [(_ & Hs & _ & Hct & Hx)
       | (c & _ & _ & [(e & _ & Hs & _ & Hct & Hx) | (j & _ & _ & _ & Hs & _ & Hct & Hx)])];
    rewrite Hs, Hct, Hx; repeat split; intros; by simplify_eq.
Qed.

End HandlerMore.

Section HandlerRoutes.
Context `{Imports}.

(** A first or last lookup never looks at the form: two requests whose
    lowered paths agree are served alike, whatever their parameters and
    whether or not their query parses. *)
Theorem lookups_ignore_the_form (a : PagerActor) (r r' : Request) :
  firstRequest r \/ lastRequest r ->
  strings_ToLower (URL_Path r') = strings_ToLower (URL_Path r) ->
  serve a r' = serve a r
  /\ EvParseForm ∉ trace (serve a r).
Proof.
  intros Hr Hp.
  assert (serve a r' = serve a r) as Heq.
  { unfold serve, ServeHTTP, mbind, M_bind. destruct Hr as [Hr | Hr].
    - assert (firstRequest r') as Hr' by (unfold firstRequest; by rewrite Hp).
      by rewrite (getContext_first _ _ Hr), (getContext_first _ _ Hr').
    - assert (lastRequest r') as Hr' by (unfold lastRequest; by rewrite Hp).
      by rewrite (getContext_last _ _ Hr), (getContext_last _ _ Hr'). }
  split; [done|]. clear Heq Hp r'.
  name_run a r W HW.
  destruct Hr as [Hr | Hr];
    [enter_in HW (getContext_first r) Hr | enter_in HW (getContext_last r) Hr];
    run_in HW; step_in HW;
    (match type of HW with
     | context [Get a ?k] => destruct (Get a k) as [[m|] [e|]]
     end);
    step_in HW;
    try (destruct (json_Marshal _) as [j [e'|]]; step_in HW);
    subst W; cbn [trace];
    intros Hin; repeat (apply elem_of_cons in Hin as [Hin | Hin]; [done|]);
    by apply elem_of_nil in Hin.
Qed.

(** A query that does not parse is answered 400 on the measurements path,
    whatever values the form holds, and the pager actor is not called. *)
Theorem unparsable_form_is_rejected (a : PagerActor) (r : Request) :
  measurementsRequest r ->
  ParseForm_err r <> None ->
  Status (w (serve a r)) = Some StatusBadRequest
  /\ trace (serve a r) = [EvParseForm].
Proof.
  intros Hm Hf.
  destruct (serve_measurements_rejected a r Hm) as (Hs & _ & Ht); [by left|done].
Qed.

(** [GetPage] is only ever called for the measurements path, with the
    parsed page and size, a page that is not negative and a size greater
    than 0. *)
Theorem GetPage_receives_a_valid_page (a : PagerActor) (r : Request) (page size : Z) :
  CallGetPage page size ∈ calls (trace (serve a r)) ->
  measurementsRequest r
  /\ page = p_page (NewPagination r)
  /\ size = p_size (NewPagination r)
  /\ 0 <= page
  /\ 0 < size.
Proof.
  pose proof (getParams_nonneg r new_pagination) as [Hp Hs].
  fold (NewPagination r) in Hp, Hs.
  destruct (serve_inv a r) as [(Hc & _) | (c & Hc & Hpage & _)];
    rewrite Hc; intros Hin.
  - by apply elem_of_nil in Hin.
  - apply list_elem_of_singleton in Hin as <-.
    destruct (Hpage page size eq_refl) as (Hm & -> & -> & Hlt). done.
Qed.

(** A 200 is the encoding of what the one call on the pager actor returned:
    the call gave no error, a lookup gave a measurement, the encoding
    succeeded and the body is its output. *)
Theorem ok_body_is_the_encoding (a : PagerActor) (r : Request) :
  Status (w (serve a r)) = Some StatusOK ->
  exists c j,
    calls (trace (serve a r)) = [c]
    /\ call_err a c = None
    /\ (forall key, c = CallGet key -> fst (Get a key) <> None)
    /\ json_Marshal (Some {| Data := call_data a c |}) = (j, None)
    /\ Body (w (serve a r)) = j.
Proof.
  destruct (serve_inv a r)
    as [(_ & Hs & _)
       | (c & Hc & _ & [(e & _ & Hs & _) | (j & He & Hg & Hj & Hs & Hb & _)])];
    rewrite Hs; intros Hst; try discriminate Hst.
  exists c, j. done.
Qed.

(** A 500 always follows one call on the pager actor and always carries a
    message, for one of three reasons: the call returned an error, a lookup
    returned neither a measurement nor an error, or the encoding failed. *)
Theorem server_error_has_a_cause (a : PagerActor) (r : Request) :
  Status (w (serve a r)) = Some StatusInternalServerError ->
  exists c e,
    calls (trace (serve a r)) = [c]
    /\ Body (w (serve a r)) = "internal error: " +:+ Error e +:+ LF
    /\ (call_err a c = Some e
        \/ (exists key, c = CallGet key /\ Get a key = (None, None)
                        /\ e = errorString "dumpsvc.get: unexpected nil result")
        \/ (call_err a c = None
            /\ snd (json_Marshal (Some {| Data := call_data a c |})) = Some e)).
Proof.
  destruct (serve_inv a r)
    as [(_ & Hs & _)
       | (c & Hc & _ & [(e & Hcause & Hs & Hb & _) | (j & _ & _ & _ & Hs & _)])];
    rewrite Hs; intros Hst; try discriminate Hst.
  exists c, e. done.
Qed.

(** A lookup that finds a measurement, and a page the pager actor returns,
    are answered 200 with their encoding as the body. *)
Theorem success_responses (a : PagerActor) (r : Request) :
  (forall key m j,
     firstRequest r /\ key = model_First \/ lastRequest r /\ key = model_Last ->
     Get a key = (Some m, None) ->
     json_Marshal (Some {| Data := OfMeasurement (Some m) |}) = (j, None) ->
     Status (w (serve a r)) = Some StatusOK /\ Body (w (serve a r)) = j)
  /\ (forall msm j,
        measurementsRequest r ->
        ParseForm_err r = None ->
        p_err (NewPagination r) = None ->
        0 < p_size (NewPagination r) ->
        GetPage a (p_page (NewPagination r)) (p_size (NewPagination r)) = (msm, None) ->
        json_Marshal (Some {| Data := OfSlice msm |}) = (j, None) ->
        Status (w (serve a r)) = Some StatusOK /\ Body (w (serve a r)) = j).
Proof.
  split.
  - intros key m j Hr Hg Hj.
    destruct (serve_get a r key Hr) as (_ & _ & _ & Hok).
    destruct (Hok m j Hg Hj) as (? & ? & _). done.
  - intros msm j Hm Hf He Hs Hg Hj.
    destruct (serve_page a r Hm Hf He Hs) as (_ & _ & Hok).
    destruct (Hok msm j Hg Hj) as (? & ? & _). done.
Qed.

(** [getContext] leaves the response writer alone and returns a context of
    exactly one kind: a first lookup, a last lookup, an error, or a
    pagination, which then has no error, fields that are not negative, and
    a size whenever it has a page. *)
Theorem getContext_kinds (r : Request) (s : World) :
  let ctx := fst (getContext r s) in
  w (snd (getContext r s)) = w s
  /\ ((c_first ctx = true /\ c_last ctx = false /\ c_err ctx = None /\ c_pag ctx = None)
      \/ (c_first ctx = false /\ c_last ctx = true /\ c_err ctx = None
          /\ c_pag ctx = None)
      \/ (c_first ctx = false /\ c_last ctx = false /\ c_err ctx <> None
          /\ c_pag ctx = None)
      \/ (c_first ctx = false /\ c_last ctx = false /\ c_err ctx = None
          /\ exists pag,
               c_pag ctx = Some pag
               /\ p_err pag = None
               /\ 0 <= p_page pag
               /\ 0 <= p_size pag
               /\ (0 < p_page pag -> 0 < p_size pag))).
Proof.
  cbn zeta.
  destruct (request_cases r) as [Hr | [Hr | [Hr | Hr]]].
  - rewrite (getContext_first _ _ Hr). cbn. split; [done|]. by left.
  - rewrite (getContext_last _ _ Hr). cbn. split; [done|]. right. by left.
  - rewrite (getContext_measurements _ _ Hr). cbn. split; [done|].
    destruct (ParseForm_err r) as [e|]; [right; right; by left|].
    destruct (p_err (NewPagination r)) as [e|] eqn:He; [right; right; by left|].
    right; right; right. repeat split; try done.
    exists (NewPagination r).
    pose proof (getParams_nonneg r new_pagination) as [Hp Hs].
    fold (NewPagination r) in Hp, Hs.
    repeat split; try done.
    intros Hpage. destruct (Z.eq_dec (p_size (NewPagination r)) 0) as [Hz|]; [|lia].
    by destruct (getParams_page_without_size r new_pagination Hpage Hz).
  - rewrite (getContext_unknown _ _ Hr). cbn. split; [done|]. right; right; by left.
Qed.

End HandlerRoutes.

(** ** More on the cache dumper *)

Section DumpMore.
Context `{Imports} {R W : Type} `{!MeasurementRepo R} `{!io_Writer W}.

(** The loop over entries that are all present, followed by more entries. *)
Lemma Do_range_app (xs : list Measurement) (m : list (ptr Measurement))
    (st : W * list string) :
  Do_range ((Some <$> xs) ++ m)%list st = Do_range m (fold_left Fprintf_plus_v xs st).
Proof.
  revert st. induction xs as [|x xs IH]; intros st; [reflexivity|].
  cbn [fmap list_fmap app Do_range fold_left]. apply IH.
Qed.

Lemma fold_Fprintf_plus_v (xs : list Measurement) (st : W * list string) :
  fold_left Fprintf_plus_v xs st
  = (fold_left (fun wr x => fst (io_Write wr (fmt_plus_v x))) xs (fst st),
     (snd st ++ (fmt_plus_v <$> xs))%list).
Proof.
  revert st. induction xs as [|x xs IH]; intros st.
  - cbn. rewrite app_nil_r. by destruct st.
  - cbn [fold_left fmap list_fmap]. rewrite IH. unfold Fprintf_plus_v.
    destruct (io_Write (fst st) (fmt_plus_v x)) as [wr' res].
    cbn [fst snd]. by rewrite <- app_assoc.
Qed.

(** When the read fails, [Do] does not touch the sink, even if [GetAll]
    returned entries along with the error; it logs the error and prints
    nothing on standard output. *)
Theorem Do_writes_nothing_when_the_read_fails (c : CacheDumper)
    (m : list (ptr Measurement)) (e : error) :
  Repo_GetAll (Repo c) = (m, Some e) ->
  fst (Do c) = Returns (Some e)
  /\ d_writes (snd (Do c)) = []
  /\ d_Writer (snd (Do c)) = Writer c
  /\ d_log (snd (Do c)) = ["error reading the local cache: " +:+ Error e +:+ LF]
  /\ d_stdout (snd (Do c)) = "".
Proof. intros Hg. unfold Do. rewrite Hg. done. Qed.


(** After a successful run the sink is in the state that one [Write] per
    measurement, in order and with no other call, leaves it in, and the
    count printed is the number of writes. *)
Theorem Do_sink_after_success (c : CacheDumper) (xs : list Measurement) :
  Repo_GetAll (Repo c) = (Some <$> xs, None) ->
  d_Writer (snd (Do c))
  = fold_left (fun wr x => fst (io_Write wr (fmt_plus_v x))) xs (Writer c)
  /\ length (d_writes (snd (Do c))) = length xs
  /\ d_stdout (snd (Do c))
     = "retrieved " +:+ pretty (Z.of_nat (length (d_writes (snd (Do c)))))
       +:+ " measurements" +:+ LF.
Proof.
  intros Hg. unfold Do. rewrite Hg.
  rewrite <- (app_nil_r (Some <$> xs)), Do_range_app, fold_Fprintf_plus_v.
  cbn [Do_range fst snd app d_writes d_stdout d_Writer].
  rewrite app_nil_r, !length_fmap. done.
Qed.

End DumpMore.

(** ** The further properties on concrete inputs *)

Lemma getParams_stores_parsed_values_witness :
  p_page (@getParams sample r_page new_pagination) = 1
  /\ p_size (@getParams sample r_page new_pagination) = 2.
Proof.
  split.
  - apply (proj1 (@getParams_stores_parsed_values sample r_page new_pagination) 1);
      by_run.
  - apply (proj2 (@getParams_stores_parsed_values sample r_page new_pagination) 2);
      by_run.
Defined.

Lemma NewPagination_error_free_iff_witness :
  p_err (@NewPagination sample r_page) = None
  /\ ~ acceptable (FormValue r_negative "page").
Proof.
  split.
  - apply (proj2 (@NewPagination_error_free_iff sample r_page)).
    split; [right; split; by_run|]. split; [right; split; by_run|].
    intros [_ Hs]. revert Hs. by_run.
  - intros Ha.
    assert (p_err (@NewPagination sample r_negative) = None) as He.
    { apply (proj2 (@NewPagination_error_free_iff sample r_negative)).
      split; [exact Ha|]. split; [left; reflexivity|].
      intros [Hp _]. revert Hp. by_run. }
    revert He. by_run.
Defined.

Lemma getParams_reports_both_values_witness :
  p_err (@getParams sample r_both_bad new_pagination)
  = Some {| Builder :=
              (TAB +:+ "page parameter error: "
               +:+ @Error sample (NumError "Atoi" "x" strconv.ErrSyntax) +:+ LF)
              +:+ (TAB +:+ "size parameter error: "
                   +:+ @Error sample (NumError "Atoi" "y" strconv.ErrSyntax) +:+ LF) |}.
Proof.
  apply (@getParams_reports_both_values sample r_both_bad new_pagination 0 0
           (NumError "Atoi" "x" strconv.ErrSyntax)
           (NumError "Atoi" "y" strconv.ErrSyntax)); by_run.
Defined.

Lemma bad_request_iff_no_call_witness :
  calls (trace (@serve sample (listActor [1; 2; 3]) r_negative)) = []
  /\ Body (w (@serve sample (listActor [1; 2; 3]) r_negative)) = "bad request" +:+ LF.
Proof.
  assert (Status (w (@serve sample (listActor [1; 2; 3]) r_negative))
          = Some StatusBadRequest) as Hs by by_run.
  split.
  - apply (proj1 (proj1 (@bad_request_iff_no_call sample (listActor [1; 2; 3])
                           r_negative)) Hs).
  - apply (proj2 (@bad_request_iff_no_call sample (listActor [1; 2; 3]) r_negative) Hs).
Defined.

Lemma content_type_follows_status_witness :
  Header (w (@serve sample (listActor [1; 2; 3]) r_page)) !! "Content-Type"
  = Some ["application/json"]
  /\ Header (w (@serve sample brokenActor r_page)) !! "Content-Type"
     = Some ["text/plain; charset=utf-8"].
Proof.
  split.
  - apply (proj1 (@content_type_follows_status sample (listActor [1; 2; 3]) r_page)).
    by_run.
  - apply (proj2 (@content_type_follows_status sample brokenActor r_page)).
    by_run.
Defined.

Lemma lookups_ignore_the_form_witness :
  @serve sample (listActor [1; 2; 3]) r_first_bad_form
  = @serve sample (listActor [1; 2; 3]) r_first
  /\ Status (w (@serve sample (listActor [1; 2; 3]) r_first_bad_form)) = Some StatusOK.
Proof.
  split; [|by_run].
  apply (@lookups_ignore_the_form sample (listActor [1; 2; 3]) r_first r_first_bad_form).
  - left. reflexivity.
  - reflexivity.
Defined.

Lemma unparsable_form_is_rejected_witness :
  Status (w (@serve sample (listActor [1; 2; 3]) r_broken_form)) = Some StatusBadRequest
  /\ trace (@serve sample (listActor [1; 2; 3]) r_broken_form) = [EvParseForm].
Proof.
  apply (@unparsable_form_is_rejected sample (listActor [1; 2; 3]) r_broken_form).
  - right. reflexivity.
  - by_run.
Defined.

Lemma GetPage_receives_a_valid_page_witness :
  @measurementsRequest sample r_page
  /\ 1 = p_page (@NewPagination sample r_page)
  /\ 2 = p_size (@NewPagination sample r_page)
  /\ 0 <= 1
  /\ 0 < 2.
Proof.
  apply (@GetPage_receives_a_valid_page sample (listActor [1; 2; 3]) r_page 1 2).
  vm_compute. constructor.
Defined.

Lemma ok_body_is_the_encoding_witness :
  exists c j,
    calls (trace (@serve sample (listActor [1; 2; 3]) r_page)) = [c]
    /\ call_err (listActor [1; 2; 3]) c = None
    /\ (forall key, c = CallGet key -> fst (Get (listActor [1; 2; 3]) key) <> None)
    /\ @json_Marshal sample (Some {| Data := call_data (listActor [1; 2; 3]) c |})
       = (j, None)
    /\ Body (w (@serve sample (listActor [1; 2; 3]) r_page)) = j.
Proof.
  apply (@ok_body_is_the_encoding sample (listActor [1; 2; 3]) r_page). by_run.
Defined.

Lemma server_error_has_a_cause_witness :
  exists c e,
    calls (trace (@serve sample brokenActor r_last)) = [c]
    /\ Body (w (@serve sample brokenActor r_last))
       = "internal error: " +:+ @Error sample e +:+ LF
    /\ (call_err brokenActor c = Some e
        \/ (exists key, c = CallGet key /\ Get brokenActor key = (None, None)
                        /\ e = errorString "dumpsvc.get: unexpected nil result")
        \/ (call_err brokenActor c = None
            /\ snd (@json_Marshal sample (Some {| Data := call_data brokenActor c |}))
               = Some e)).
Proof.
  apply (@server_error_has_a_cause sample brokenActor r_last). by_run.
Defined.

Lemma success_responses_witness :
  Status (w (@serve sample (listActor [1; 2; 3]) r_last)) = Some StatusOK
  /\ Body (w (@serve sample (listActor [1; 2; 3]) r_last))
     = "{" +:+ DQ +:+ "Data" +:+ DQ +:+ ":3}"
  /\ Body (w (@serve sample (listActor [1; 2; 3]) r_page))
     = "{" +:+ DQ +:+ "Data" +:+ DQ +:+ ":[3]}".
Proof.
  destruct (proj1 (@success_responses sample (listActor [1; 2; 3]) r_last)
              "last" 3 ("{" +:+ DQ +:+ "Data" +:+ DQ +:+ ":3}")) as [Hs Hb].
  - right. split; reflexivity.
  - reflexivity.
  - reflexivity.
  - split; [exact Hs|]. split; [exact Hb|].
    apply (proj2 (@success_responses sample (listActor [1; 2; 3]) r_page) [Some 3]).
    + right. reflexivity.
    + reflexivity.
    + by_run.
    + by_run.
    + by_run.
    + reflexivity.
Defined.

Lemma Do_writes_nothing_when_the_read_fails_witness :
  fst (@Do sample _ _ _ _ staleDumper) = Returns (Some (errorString "storage fault"))
  /\ d_writes (snd (@Do sample _ _ _ _ staleDumper)) = []
  /\ d_Writer (snd (@Do sample _ _ _ _ staleDumper)) = Writer staleDumper
  /\ d_log (snd (@Do sample _ _ _ _ staleDumper))
     = ["error reading the local cache: storage fault" +:+ LF]
  /\ d_stdout (snd (@Do sample _ _ _ _ staleDumper)) = "".
Proof.
  apply (@Do_writes_nothing_when_the_read_fails sample _ _ _ _ staleDumper
           [Some 1; Some 2] (errorString "storage fault")).
  reflexivity.
Defined.


Lemma Do_sink_after_success_witness :
  content (d_Writer (snd (@Do sample _ _ _ _ smallDumper))) = "{Seq:1}"
  /\ length (d_writes (snd (@Do sample _ _ _ _ smallDumper))) = 3%nat.
Proof.
  destruct (@Do_sink_after_success sample _ _ _ _ smallDumper [1; 2; 3] eq_refl)
    as (Hw & Hl & _).
  split; [|exact Hl]. rewrite Hw. reflexivity.
Defined.

Lemma getContext_kinds_witness :
  let s0 := {| w := newResponseWriter; trace := [] |} in
  w (snd (@getContext sample r_page s0)) = w s0
  /\ c_pag (fst (@getContext sample r_page s0))
     = Some {| p_page := 1; p_size := 2; p_err := None |}.
Proof.
  intros s0. split.
  - apply (proj1 (@getContext_kinds sample r_page s0)).
  - destruct (proj2 (@getContext_kinds sample r_page s0))
      as [(Hf & _) | [(_ & Hl & _) | [(_ & _ & He & _) | (_ & _ & _ & pag & Hp & _)]]].
    + revert Hf. by_run.
    + revert Hl. by_run.
    + exfalso. apply He. by_run.
    + by_run.
Defined.
